(** * Media ingestion pipeline of the video-hosting backend

    A shallow embedding of the upload handlers (thumbnail and video), the
    asset-path helpers, the geometry inspector, the fast-start rewriter and
    the URL signing adapter, followed by the properties established about
    them.

    Go strings are byte strings and are modelled as [string]; [[]byte] is
    [list byte]; Go's [int] is a 64-bit two's complement integer, modelled
    as [Z] with the wrap-around written out; [error] values are modelled by
    their message. *)

From Stdlib Require Import ZArith NArith Ascii String List Lia.
From Stdlib.Strings Require Import Byte.
From stdpp Require Import base option list gmap strings.

Open Scope string_scope.
Open Scope Z_scope.

(** ** Results of fallible calls *)

Definition error := string.

Inductive result (A : Type) : Type :=
| Ok (a : A)
| Err (e : error).
Arguments Ok {A} a.
Arguments Err {A} e.

(** ** Library functions the code relies on *)

Module strings.

(** [strings.Split(s, sep)] for a one-byte separator, which is what both
    call sites pass ("/" and ","): the substrings between the
    separators, in order; a string without separator yields the string
    itself as the only element (also for the empty string). *)
Fixpoint Split (s : string) (sep : ascii) : list string :=
  match s with
  | EmptyString => [EmptyString]
  | String c s' =>
      if Ascii.eqb c sep then EmptyString :: Split s' sep
      else match Split s' sep with
           | p :: ps => String c p :: ps
           | [] => [String c EmptyString]
           end
  end.

(** Occurrence of a byte in a string. *)
Fixpoint Contains (s : string) (c : ascii) : bool :=
  match s with
  | EmptyString => false
  | String c' s' => Ascii.eqb c' c || Contains s' c
  end.

End strings.

Module base64.

(** The URL-safe alphabet of [base64.RawURLEncoding]. *)
Definition encodeURL : string :=
  "ABCDEFGHIJKLMNOPQRSTUVWXYZabcdefghijklmnopqrstuvwxyz0123456789-_".

(** [enc.encode[i]]; the index is always masked with 0x3F. *)
Definition encode (i : N) : ascii :=
  match String.get (N.to_nat i) encodeURL with
  | Some c => c
  | None => "A"%char
  end.

Definition sextet (val : N) (shift : N) : ascii :=
  encode (N.land (N.shiftr val shift) 63).

(** [RawURLEncoding.EncodeToString]: three source bytes give four
    characters; a remainder of one byte gives two characters, of two
    bytes three characters; no padding character is written. *)
Fixpoint EncodeToString (src : list byte) : string :=
  match src with
  | [] => EmptyString
  | [b0] =>
      let val := N.shiftl (Byte.to_N b0) 16 in
      String (sextet val 18) (String (sextet val 12) EmptyString)
  | [b0; b1] =>
      let val := N.lor (N.shiftl (Byte.to_N b0) 16)
                       (N.shiftl (Byte.to_N b1) 8) in
      String (sextet val 18) (String (sextet val 12)
        (String (sextet val 6) EmptyString))
  | b0 :: b1 :: b2 :: rest =>
      let val := N.lor (N.lor (N.shiftl (Byte.to_N b0) 16)
                              (N.shiftl (Byte.to_N b1) 8))
                       (Byte.to_N b2) in
      String (sextet val 18) (String (sextet val 12)
        (String (sextet val 6) (String (sextet val 0)
          (EncodeToString rest))))
  end.

End base64.

(** ** 64-bit integer arithmetic of Go's [int] *)

Definition wrap64 (z : Z) : Z := (z + 2 ^ 63) mod 2 ^ 64 - 2 ^ 63.

Definition int_mul (a b : Z) : Z := wrap64 (a * b).

(** Integer division truncates toward zero. *)
Definition int_div (a b : Z) : Z := wrap64 (Z.quot a b).

(** ** Asset paths (assets.go) *)

(** [mediaTypeToExt]: the subtype with a leading ".", or ".bin" when the
    media type does not split into exactly two parts on "/". *)
Definition mediaTypeToExt (mediaType : string) : string :=
  let parts := strings.Split mediaType "/"%char in
  if negb (length parts =? 2)%nat then ".bin"
  else "." ++ nth 1 parts EmptyString.

(** ** Vocabulary of the properties *)

Fixpoint all_chars (p : ascii -> bool) (s : string) : bool :=
  match s with
  | EmptyString => true
  | String c s' => p c && all_chars p s'
  end.

Definition is_url_char (c : ascii) : bool :=
  strings.Contains base64.encodeURL c.

(** The characters that may not occur in a token of a media type
    (RFC 2045): the quote, the backslash and the other tspecials. *)
Definition tspecials : string :=
  String (ascii_of_nat 34) (String (ascii_of_nat 92) "()<>@,;:/[]?=").

Definition is_token_char (c : ascii) : bool :=
  (32 <? nat_of_ascii c)%nat && (nat_of_ascii c <? 127)%nat
  && negb (strings.Contains tspecials c).

Definition is_token (s : string) : bool :=
  negb (String.eqb s EmptyString) && all_chars is_token_char s.

(** A syntactically valid media type: [type "/" subtype], both tokens. *)
Definition valid_media_type (s : string) : bool :=
  match strings.Split s "/"%char with
  | [type; subtype] => is_token type && is_token subtype
  | _ => false
  end.

(** One path element that names a file below the directory it is joined
    to: not empty, not "." or "..", without separator and without NUL. *)
Definition valid_path_segment (s : string) : Prop :=
  s <> EmptyString /\ s <> "." /\ s <> ".." /\
  strings.Contains s "/"%char = false /\
  strings.Contains s zero = false.

(** ** Data model *)

(** A [uuid.UUID] is a 128-bit value. *)
Abbreviation UUID := N.

(** Modelled from the spec: [database.Video] is declared in the package
    internal/database. A video record has an identity, an owning user, an
    optional thumbnail reference and an optional video reference (Go's
    [*string], [nil] being [None]). *)
Record Video := {
  ID : UUID;
  UserID : UUID;
  ThumbnailURL : option string;
  VideoURL : option string;
}.

Definition with_VideoURL (video : Video) (url : option string) : Video :=
  {| ID := ID video; UserID := UserID video;
     ThumbnailURL := ThumbnailURL video; VideoURL := url |}.

Definition with_ThumbnailURL (video : Video) (url : option string) : Video :=
  {| ID := ID video; UserID := UserID video;
     ThumbnailURL := url; VideoURL := VideoURL video |}.

(** Modelled from the spec: [apiConfig] is declared with the server's
    entry point; these are the fields the handlers read. The two store
    clients ([cfg.db], [cfg.s3Client]) are the stores of the [World]
    below. *)
Record apiConfig := {
  jwtSecret : string;
  s3Bucket : string;
  assetsRoot : string;
  port : string;
}.

(** One file part of a multipart form: its bytes and the value of its
    Content-Type header. *)
Record Part := {
  part_data : list byte;
  part_ContentType : string;
}.

(** What the handlers read from an [*http.Request]. *)
Record Request := {
  PathValue : string -> string;
  Header : list (string * string);
  FormFile : string -> result Part;
}.

(** Modelled from the spec: [respondWithJSON] and [respondWithError] are
    declared with the JSON helpers of the server; a response is a
    JSON-encoded record or a JSON-encoded error message, with an HTTP
    status code. *)
Inductive Response :=
| RespJSON (code : Z) (payload : Video)
| RespError (code : Z) (msg : string) (err : option error).

Definition StatusOK : Z := 200.
Definition StatusBadRequest : Z := 400.
Definition StatusUnauthorized : Z := 401.
Definition StatusInternalServerError : Z := 500.

(** ** The world a request runs in *)

(** The steps of a request that can fail: the calls to collaborators whose
    error the code inspects, and the decisions the code takes itself. *)
Inductive Step :=
| UuidParse | GetBearerToken | ValidateJWT
| GetVideo | OwnerIsUser
| ParseForm | ParseMediaType | AllowedMediaType
| CreateTemp | CreateFile | Copy | Seek | Remove
| RunFfprobe | Unmarshal | HasStreams
| RandRead
| RunFfmpeg | Stat | NonEmptyOutput | OpenFile
| PutObject | UpdateVideo | PresignGetObject.

(** One entry of the journal of a request: the step, its string arguments
    (paths, bucket and key) and whether it succeeded. *)
Inductive Event := Did (s : Step) (args : list string) (ok : bool).

(** Local files with their contents, the objects of the object store (by
    bucket and key, with their content type), the records of the metadata
    store, the journal (newest entry first) and the response written to the
    [http.ResponseWriter], if any. *)
Record World := {
  fs : gmap string (list byte);
  s3 : gmap (string * string) (list byte * string);
  db : gmap N Video;
  trace : list Event;
  sent : option Response;
}.

Definition set_fs (f : gmap string (list byte)) (w : World) : World :=
  {| fs := f; s3 := s3 w; db := db w; trace := trace w; sent := sent w |}.

Definition set_s3 (o : gmap (string * string) (list byte * string))
    (w : World) : World :=
  {| fs := fs w; s3 := o; db := db w; trace := trace w; sent := sent w |}.

Definition set_db (d : gmap N Video) (w : World) : World :=
  {| fs := fs w; s3 := s3 w; db := d; trace := trace w; sent := sent w |}.

Definition record_event (e : Event) (w : World) : World :=
  {| fs := fs w; s3 := s3 w; db := db w; trace := e :: trace w;
     sent := sent w |}.

Definition set_sent (r : Response) (w : World) : World :=
  {| fs := fs w; s3 := s3 w; db := db w; trace := trace w; sent := Some r |}.

(** The collaborators outside the pipeline, as far as their answers are not
    determined by the [World]: parsing and authentication libraries, the
    two external processes, the random source, and the faults the
    operating system and the two stores may raise. *)
Record Env := {
  ext_uuid_Parse : string -> result N;
  ext_GetBearerToken : list (string * string) -> result string;
  ext_ValidateJWT : string -> string -> result N;
  ext_ParseMediaType : string -> result string;
  ext_Join : string -> string -> string;
  (* os.CreateTemp(dir, pattern): the name of the file it creates *)
  ext_CreateTemp : string -> string -> gmap string (list byte) -> result string;
  ext_Create_fault : string -> option error;
  (* io.Copy to a file: the number of bytes written before a failure *)
  ext_Copy_fault : string -> list byte -> option (nat * error);
  ext_Seek_fault : string -> option error;
  ext_Open_fault : string -> option error;
  (* crypto/rand.Read on a buffer of the given length *)
  ext_rand_Read : nat -> list byte * option error;
  (* ffprobe on a file: standard output and the error of cmd.Run *)
  ext_ffprobe : string -> gmap string (list byte) -> string * option error;
  (* json.Unmarshal of the probe output: width and height per stream *)
  ext_Unmarshal : string -> result (list (Z * Z));
  (* ffmpeg from an input to an output path: what it leaves at the output
     path (nothing, or a file), its standard error, the error of cmd.Run *)
  ext_ffmpeg : string -> string -> gmap string (list byte) ->
               option (list byte) * string * option error;
  ext_GetVideo_fault : N -> option error;
  ext_UpdateVideo_fault : Video -> option error;
  ext_PutObject_fault : string -> string -> option error;
  (* PresignGetObject for a bucket and key, valid for so many seconds *)
  ext_Presign : string -> string -> Z -> result string;
}.

(** ** Control flow *)

(** How a piece of a Go function ends: it goes on with a value, the
    enclosing function has returned, or it panics. *)
Inductive Exit (A : Type) : Type :=
| Next (a : A)
| Returned
| Panicked (msg : string).
Arguments Next {A} a.
Arguments Returned {A}.
Arguments Panicked {A} msg.

Definition M (A : Type) : Type := World -> World * Exit A.

Definition ret {A} (a : A) : M A := fun w => (w, Next a).

Definition bind {A B} (m : M A) (k : A -> M B) : M B := fun w =>
  match m w with
  | (w1, Next a) => k a w1
  | (w1, Returned) => (w1, Returned)
  | (w1, Panicked msg) => (w1, Panicked msg)
  end.

Notation "'let*' x ':=' m 'in' k" := (bind m (fun x => k))
  (at level 10, x name, m at level 100, k at level 200).

Notation "'let*' ' p ':=' m 'in' k" := (bind m (fun p => k))
  (at level 10, p strict pattern, m at level 100, k at level 200).

(** [return] in the middle of a function. *)
Definition return_ {A} : M A := fun w => (w, Returned).

(** [if err != nil { h(err); return }] after a fallible call. *)
Definition on_err {A} (m : M (result A)) (h : error -> M unit) : M A := fun w =>
  match m w with
  | (w1, Next (Ok a)) => (w1, Next a)
  | (w1, Next (Err e)) => ((h e w1).1, Returned)
  | (w1, Returned) => (w1, Returned)
  | (w1, Panicked msg) => (w1, Panicked msg)
  end.

(** [if !cond { h; return }]; the decision is entered in the journal. *)
Definition require (s : Step) (cond : bool) (h : M unit) : M unit := fun w =>
  let w1 := record_event (Did s [] cond) w in
  if cond then (w1, Next tt) else ((h w1).1, Returned).

(** A decision of the code itself, entered in the journal. *)
Definition note (s : Step) (ok : bool) : M unit := fun w =>
  (record_event (Did s [] ok) w, Next tt).

(** [defer cleanup] placed before [body]: the cleanup runs when the
    function ends, however it ends. *)
Definition defer {A} (cleanup : M unit) (body : M A) : M A := fun w =>
  let '(w1, x) := body w in ((cleanup w1).1, x).

(** [panic(msg)]. *)
Definition panic {A} (msg : string) : M A := fun w => (w, Panicked msg).

Definition is_ok {A} (r : result A) : bool :=
  match r with Ok _ => true | Err _ => false end.

Definition of_fault (f : option error) : result unit :=
  match f with Some e => Err e | None => Ok tt end.

(** A call to a collaborator: its effect on the world and its result, with
    the outcome entered in the journal. *)
Definition call {A} (s : Step) (args : list string)
    (f : World -> World * result A) : M (result A) := fun w =>
  let '(w1, res) := f w in
  (record_event (Did s args (is_ok res)) w1, Next res).

Definition pure_call {A} (s : Step) (args : list string) (res : result A)
    : M (result A) :=
  call s args (fun w => (w, res)).

(** ** Collaborators *)

Section Pipeline.

Variable env : Env.
Variable cfg : apiConfig.

Definition uuid_Parse (s : string) : M (result N) :=
  pure_call UuidParse [s] (ext_uuid_Parse env s).

Definition auth_GetBearerToken (headers : list (string * string))
    : M (result string) :=
  pure_call GetBearerToken [] (ext_GetBearerToken env headers).

Definition auth_ValidateJWT (token secret : string) : M (result N) :=
  pure_call ValidateJWT [token] (ext_ValidateJWT env token secret).

Definition r_FormFile (r : Request) (name : string) : M (result Part) :=
  pure_call ParseForm [name] (FormFile r name).

Definition mime_ParseMediaType (v : string) : M (result string) :=
  pure_call ParseMediaType [v] (ext_ParseMediaType env v).

(** Modelled from the spec: the metadata store is a record store with
    [get(videoID) -> Record | NotFound] and [update(Record) -> ok | Error],
    keyed by the identity of the record; its client is declared in the
    package internal/database. *)
Definition db_GetVideo (id : N) : M (result Video) :=
  call GetVideo [] (fun w =>
    match ext_GetVideo_fault env id with
    | Some e => (w, Err e)
    | None =>
        match db w !! id with
        | Some video => (w, Ok video)
        | None => (w, Err "sql: no rows in result set")
        end
    end).

Definition db_UpdateVideo (video : Video) : M (result unit) :=
  call UpdateVideo [] (fun w =>
    match ext_UpdateVideo_fault env video with
    | Some e => (w, Err e)
    | None => (set_db (<[ID video := video]> (db w)) w, Ok tt)
    end).

(** [os.CreateTemp(dir, pattern)]: creates an empty file and returns its
    name. *)
Definition os_CreateTemp (dir pattern : string) : M (result string) :=
  fun w =>
    match ext_CreateTemp env dir pattern (fs w) with
    | Ok name =>
        (record_event (Did CreateTemp [name] true)
           (set_fs (<[name := []]> (fs w)) w), Next (Ok name))
    | Err e => (record_event (Did CreateTemp [] false) w, Next (Err e))
    end.

(** [os.Create(path)]: creates the file, or truncates it. *)
Definition os_Create (path : string) : M (result string) :=
  call CreateFile [path] (fun w =>
    match ext_Create_fault env path with
    | Some e => (w, Err e)
    | None => (set_fs (<[path := []]> (fs w)) w, Ok path)
    end).

(** [io.Copy(dst, src)] into a file that was just created: on a failure
    the bytes written so far stay in the file. *)
Definition io_Copy (dst : string) (src : list byte) : M (result nat) :=
  call Copy [dst] (fun w =>
    match ext_Copy_fault env dst src with
    | Some (n, e) => (set_fs (<[dst := take n src]> (fs w)) w, Err e)
    | None => (set_fs (<[dst := src]> (fs w)) w, Ok (length src))
    end).

Definition file_Seek (path : string) : M (result unit) :=
  pure_call Seek [path] (of_fault (ext_Seek_fault env path)).

(** [os.Remove(path)]; the handlers ignore its result. *)
Definition os_Remove (path : string) : M unit := fun w =>
  (record_event (Did Remove [path] true) (set_fs (delete path (fs w)) w),
   Next tt).

(** [os.Stat(path)], of which the code reads the size. *)
Definition os_Stat (path : string) : M (result nat) :=
  call Stat [path] (fun w =>
    match fs w !! path with
    | Some data => (w, Ok (length data))
    | None => (w, Err ("stat " ++ path ++ ": no such file or directory"))
    end).

(** [os.Open(path)]: the contents that a reader of the file yields. *)
Definition os_Open (path : string) : M (result (list byte)) :=
  call OpenFile [path] (fun w =>
    match ext_Open_fault env path with
    | Some e => (w, Err e)
    | None =>
        match fs w !! path with
        | Some data => (w, Ok data)
        | None => (w, Err ("open " ++ path ++ ": no such file or directory"))
        end
    end).

(** Running [ffprobe -v error -print_format json -show_streams path]:
    standard output and the error of [cmd.Run]. *)
Definition run_ffprobe (filePath : string) : M (string * result unit) :=
  fun w =>
    let '(stdout, err) := ext_ffprobe env filePath (fs w) in
    (record_event (Did RunFfprobe [filePath] (is_ok (of_fault err))) w,
     Next (stdout, of_fault err)).

Definition json_Unmarshal (data : string) : M (result (list (Z * Z))) :=
  pure_call Unmarshal [] (ext_Unmarshal env data).

(** Running [ffmpeg -i input -movflags faststart -codec copy -f mp4
    output]: standard error and the error of [cmd.Run]; the process may
    leave a file at the output path. *)
Definition run_ffmpeg (input output : string) : M (string * result unit) :=
  fun w =>
    let '(written, stderr, err) := ext_ffmpeg env input output (fs w) in
    let files :=
      match written with
      | Some data => <[output := data]> (fs w)
      | None => fs w
      end in
    (record_event (Did RunFfmpeg [input; output] (is_ok (of_fault err)))
       (set_fs files w),
     Next (stderr, of_fault err)).

(** [rand.Read(base)] on a buffer of [n] zero bytes: the buffer
    afterwards, and the error. *)
Definition rand_Read (n : nat) : M (list byte * result unit) := fun w =>
  let '(bytes, err) := ext_rand_Read env n in
  (record_event (Did RandRead [] (is_ok (of_fault err))) w,
   Next (resize n x00 bytes, of_fault err)).

(** [s3Client.PutObject]: one request; on success the object is stored
    under bucket and key. *)
Definition s3_PutObject (bucket key : string) (body : list byte)
    (contentType : string) : M (result unit) :=
  call PutObject [bucket; key; contentType] (fun w =>
    match ext_PutObject_fault env bucket key with
    | Some e => (w, Err e)
    | None => (set_s3 (<[(bucket, key) := (body, contentType)]> (s3 w)) w,
               Ok tt)
    end).

Definition s3_PresignGetObject (bucket key : string) (expires : Z)
    : M (result string) :=
  pure_call PresignGetObject [bucket; key]
    (ext_Presign env bucket key expires).

Definition respondWithError (code : Z) (msg : string) (err : option error)
    : M unit :=
  fun w => (set_sent (RespError code msg err) w, Next tt).

Definition respondWithJSON (code : Z) (payload : Video) : M unit :=
  fun w => (set_sent (RespJSON code payload) w, Next tt).

(** ** Asset paths, continued (assets.go) *)

(** [getAssetPath]: 32 random bytes, encoded, followed by the extension
    of the media type; panics when the random source fails. *)
Definition getAssetPath (mediaType : string) : M string :=
  let* '(base, err) := rand_Read 32 in
  match err with
  | Err _ => panic "failed to generate random bytes"
  | Ok _ =>
      let id := base64.EncodeToString base in
      let ext := mediaTypeToExt mediaType in
      ret (id ++ ext)
  end.

Definition getAssetDiskPath (assetPath : string) : string :=
  ext_Join env (assetsRoot cfg) assetPath.

Definition getAssetURL (assetPath : string) : string :=
  "http://localhost:" ++ port cfg ++ "/assets/" ++ assetPath.

(** ** Geometry inspector (handler_upload_video.go) *)

Definition getVideoAspectRatio (filePath : string) : M (result string) :=
  let* '(stdout, ran) := run_ffprobe filePath in
  match ran with
  | Err err => ret (Err ("ffprobe error: " ++ err))
  | Ok _ =>
      let* parsed := json_Unmarshal stdout in
      match parsed with
      | Err err => ret (Err ("could not parse ffprobe output: " ++ err))
      | Ok streams =>
          match streams with
          | [] =>
              let* _ := note HasStreams false in
              ret (Err "no video streams found")
          | (width, height) :: _ =>
              let* _ := note HasStreams true in
              if width =? int_div (int_mul 16 height) 9
              then ret (Ok "16:9")
              else if height =? int_div (int_mul 16 width) 9
              then ret (Ok "9:16")
              else ret (Ok "other")
          end
      end
  end.

(** ** Fast-start rewriter *)

Definition processVideoForFastStart (inputFilePath : string)
    : M (result string) :=
  let processedFilePath := inputFilePath ++ ".processing" in
  let* '(stderr, ran) := run_ffmpeg inputFilePath processedFilePath in
  match ran with
  | Err err =>
      ret (Err ("error processing video: " ++ stderr ++ ", " ++ err))
  | Ok _ =>
      let* fileInfo := os_Stat processedFilePath in
      match fileInfo with
      | Err err => ret (Err ("could not stat processed file: " ++ err))
      | Ok size =>
          if (size =? 0)%nat
          then let* _ := note NonEmptyOutput false in
               ret (Err "processed file is empty")
          else let* _ := note NonEmptyOutput true in
               ret (Ok processedFilePath)
      end
  end.

(** ** URL signing adapter *)

Definition generatePresignedURL (bucket key : string) (expireTime : Z)
    : M (result string) :=
  let* presigned := s3_PresignGetObject bucket key expireTime in
  match presigned with
  | Err err => ret (Err ("failed to generate presigned URL: " ++ err))
  | Ok url => ret (Ok url)
  end.

(** Five minutes, in seconds. *)
Definition five_minutes : Z := 5 * 60.

(** Go returns the record and the error side by side. *)
Definition dbVideoToSignedVideo (video : Video) : M (Video * option error) :=
  match VideoURL video with
  | None => ret (video, None)
  | Some url =>
      let parts := strings.Split url ","%char in
      if (length parts <? 2)%nat then ret (video, None)
      else
        let bucket := nth 0 parts EmptyString in
        let key := nth 1 parts EmptyString in
        let* presigned := generatePresignedURL bucket key five_minutes in
        match presigned with
        | Err err => ret (video, Some err)
        | Ok presigned => ret (with_VideoURL video (Some presigned), None)
        end
  end.

(** ** Upload orchestrator: video *)

(** The [switch aspectRatio] of the handler: the key prefix of a bucket. *)
Definition directory_of (aspectRatio : string) : string :=
  if String.eqb aspectRatio "16:9" then "landscape"
  else if String.eqb aspectRatio "9:16" then "portrait"
  else "other".

(** The limit that [http.MaxBytesReader] puts on the body shows in the
    result of [r.FormFile]; closing the files has no effect on the
    world. *)

Definition handlerUploadVideo (r : Request) : M unit :=
  let videoIDString := PathValue r "videoID" in
  let* videoID := on_err (uuid_Parse videoIDString) (fun err =>
    respondWithError StatusBadRequest "Invalid ID" (Some err)) in
  let* token := on_err (auth_GetBearerToken (Header r)) (fun err =>
    respondWithError StatusUnauthorized "Couldn't validate JWT" (Some err)) in
  let* userID := on_err (auth_ValidateJWT token (jwtSecret cfg)) (fun err =>
    respondWithError StatusUnauthorized "Couldn't validate JWT" (Some err)) in
  let* video := on_err (db_GetVideo videoID) (fun err =>
    respondWithError StatusInternalServerError "Couldn't find video"
      (Some err)) in
  let* _ := require OwnerIsUser (N.eqb (UserID video) userID)
    (respondWithError StatusUnauthorized
       "Not authorized to update this video" None) in
  let* part := on_err (r_FormFile r "video") (fun err =>
    respondWithError StatusBadRequest "Unable to parse form file"
      (Some err)) in
  let* mediaType := on_err (mime_ParseMediaType (part_ContentType part))
    (fun err =>
       respondWithError StatusBadRequest "Invalid Content-Type" (Some err)) in
  let* _ := require AllowedMediaType (String.eqb mediaType "video/mp4")
    (respondWithError StatusBadRequest
       "Invalid file type, only MP4 is allowed" None) in
  let* tempFile := on_err (os_CreateTemp "" "tubely-upload.mp4") (fun err =>
    respondWithError StatusInternalServerError "Could not create temp file"
      (Some err)) in
  defer (os_Remove tempFile) (
    let* _ := on_err (io_Copy tempFile (part_data part)) (fun err =>
      respondWithError StatusInternalServerError
        "Could not write file to disk" (Some err)) in
    let* _ := on_err (file_Seek tempFile) (fun err =>
      respondWithError StatusInternalServerError
        "Could not reset file pointer" (Some err)) in
    let* aspectRatio := on_err (getVideoAspectRatio tempFile) (fun err =>
      respondWithError StatusInternalServerError
        "Error determining aspect ratio" (Some err)) in
    let directory := directory_of aspectRatio in
    let* key := getAssetPath mediaType in
    let key := ext_Join env directory key in
    let* processedFilePath := on_err (processVideoForFastStart tempFile)
      (fun err =>
         respondWithError StatusInternalServerError
           "Error processing video" (Some err)) in
    defer (os_Remove processedFilePath) (
      let* processedFile := on_err (os_Open processedFilePath) (fun err =>
        respondWithError StatusInternalServerError
          "Could not open processed file" (Some err)) in
      let* _ := on_err (s3_PutObject (s3Bucket cfg) key processedFile mediaType)
        (fun err =>
           respondWithError StatusInternalServerError
             "Error uploading file to S3" (Some err)) in
      let url := s3Bucket cfg ++ "," ++ key in
      let video := with_VideoURL video (Some url) in
      let* _ := on_err (db_UpdateVideo video) (fun err =>
        respondWithError StatusInternalServerError "Couldn't update video"
          (Some err)) in
      let* '(video, err) := dbVideoToSignedVideo video in
      match err with
      | Some err =>
          let* _ := respondWithError StatusInternalServerError
                      "Couldn't generate presigned URL" (Some err) in
          return_
      | None => respondWithJSON StatusOK video
      end)).

(** ** Upload orchestrator: thumbnail (handler_upload_thumbnail.go)

    The result of [r.ParseMultipartForm(maxMemory)] is dropped by the
    code; the form is read through [r.FormFile]. *)

Definition handlerUploadThumbnail (r : Request) : M unit :=
  let videoIDString := PathValue r "videoID" in
  let* videoID := on_err (uuid_Parse videoIDString) (fun err =>
    respondWithError StatusBadRequest "Invalid ID" (Some err)) in
  let* token := on_err (auth_GetBearerToken (Header r)) (fun err =>
    respondWithError StatusUnauthorized "Couldn't find JWT" (Some err)) in
  let* userID := on_err (auth_ValidateJWT token (jwtSecret cfg)) (fun err =>
    respondWithError StatusUnauthorized "Couldn't validate JWT" (Some err)) in
  let* part := on_err (r_FormFile r "thumbnail") (fun err =>
    respondWithError StatusBadRequest "Unable to parse form file"
      (Some err)) in
  let* mediaType := on_err (mime_ParseMediaType (part_ContentType part))
    (fun err =>
       respondWithError StatusBadRequest "Invalid Content-Type" (Some err)) in
  let* _ := require AllowedMediaType
    (negb (negb (String.eqb mediaType "image/jpeg")
           && negb (String.eqb mediaType "image/png")))
    (respondWithError StatusBadRequest "Invalid file type" None) in
  let* assetPath := getAssetPath mediaType in
  let assetDiskPath := getAssetDiskPath assetPath in
  let* dst := on_err (os_Create assetDiskPath) (fun err =>
    respondWithError StatusInternalServerError
      "Unable to create file on server" (Some err)) in
  let* _ := on_err (io_Copy dst (part_data part)) (fun err =>
    respondWithError StatusInternalServerError "Error saving file"
      (Some err)) in
  let* video := on_err (db_GetVideo videoID) (fun err =>
    respondWithError StatusInternalServerError "Couldn't find video"
      (Some err)) in
  let* _ := require OwnerIsUser (N.eqb (UserID video) userID)
    (respondWithError StatusUnauthorized
       "Not authorized to update this video" None) in
  let url := getAssetURL assetPath in
  let video := with_ThumbnailURL video (Some url) in
  let* _ := on_err (db_UpdateVideo video) (fun err =>
    respondWithError StatusInternalServerError "Couldn't update video"
      (Some err)) in
  respondWithJSON StatusOK video.

End Pipeline.

(** ** A concrete deployment, for running the handlers *)

Module Sample.

Definition video_id : string := "123e4567-e89b-12d3-a456-426614174000".

Definition entropy (n : nat) : list byte * option error :=
  (repeat "*"%byte n, None).

(** The rewriter copies its input to the output path. *)
Definition rewriter (input _ : string) (files : gmap string (list byte))
    : option (list byte) * string * option error :=
  match files !! input with
  | Some data => (Some data, "", None)
  | None => (None, "No such file or directory", Some "exit status 1")
  end.

Definition signer (bucket key : string) (_ : Z) : result string :=
  Ok ("https://" ++ bucket ++ ".s3.amazonaws.com/" ++ key
      ++ "?X-Amz-Expires=300").

(** Alice is user 7, Bob is user 8; video 1 belongs to Alice. The random
    source, the rewriter, the signer and the streams the probe reports
    vary between the scenarios. *)
Definition deployment
    (rand : nat -> list byte * option error)
    (ffmpeg : string -> string -> gmap string (list byte) ->
              option (list byte) * string * option error)
    (presign : string -> string -> Z -> result string)
    (streams : list (Z * Z)) : Env := {|
  ext_uuid_Parse := fun s =>
    if String.eqb s video_id then Ok 1%N else Err "invalid UUID length";
  ext_GetBearerToken := fun headers =>
    match headers with
    | [(_, token)] => Ok token
    | _ => Err "no auth header included in request"
    end;
  ext_ValidateJWT := fun token _ =>
    if String.eqb token "alice" then Ok 7%N
    else if String.eqb token "bob" then Ok 8%N
    else Err "invalid token";
  ext_ParseMediaType := fun v =>
    if String.eqb v "" then Err "mime: no media type" else Ok v;
  ext_Join := fun a b => a ++ "/" ++ b;
  ext_CreateTemp := fun _ pattern _ => Ok ("/tmp/" ++ pattern ++ "2733");
  ext_Create_fault := fun _ => None;
  ext_Copy_fault := fun _ _ => None;
  ext_Seek_fault := fun _ => None;
  ext_Open_fault := fun _ => None;
  ext_rand_Read := rand;
  ext_ffprobe := fun _ _ => ("{}", None);
  ext_Unmarshal := fun _ => Ok streams;
  ext_ffmpeg := ffmpeg;
  ext_GetVideo_fault := fun _ => None;
  ext_UpdateVideo_fault := fun _ => None;
  ext_PutObject_fault := fun _ _ => None;
  ext_Presign := presign;
|}.

Definition env : Env := deployment entropy rewriter signer [(1920, 1080)].

Definition cfg : apiConfig := {|
  jwtSecret := "secret";
  s3Bucket := "tubely";
  assetsRoot := "assets";
  port := "8091";
|}.

Definition video : Video := {|
  ID := 1%N; UserID := 7%N; ThumbnailURL := None; VideoURL := None;
|}.

Definition world : World := {|
  fs := ∅; s3 := ∅; db := {[ 1%N := video ]}; trace := []; sent := None;
|}.

Definition mp4 : list byte := ["f"%byte; "t"%byte; "y"%byte; "p"%byte].

Definition upload (token field contentType : string) (data : list byte)
    : Request := {|
  PathValue := fun name =>
    if String.eqb name "videoID" then video_id else "";
  Header := [("Authorization", token)];
  FormFile := fun name =>
    if String.eqb name field
    then Ok {| part_data := data; part_ContentType := contentType |}
    else Err "http: no such file";
|}.

(** The rewriter leaves an empty file behind and exits with status 0. *)
Definition env_empty_output : Env :=
  deployment entropy (fun _ _ _ => (Some [], "", None)) signer
    [(1920, 1080)].

(** The random source fails. *)
Definition env_no_entropy : Env :=
  deployment (fun _ => ([], Some "unexpected EOF")) rewriter signer
    [(1920, 1080)].

(** The signer fails. *)
Definition env_no_signer : Env :=
  deployment entropy rewriter (fun _ _ _ => Err "operation error S3")
    [(1920, 1080)].

(** The probe reports the given width and height. *)
Definition env_probing (width height : Z) : Env :=
  deployment entropy rewriter signer [(width, height)].

End Sample.

(** ** Vocabulary of the handler properties *)

(** The steps of a journal that failed, newest first. *)
Fixpoint failures (t : list Event) : list Step :=
  match t with
  | [] => []
  | Did s _ ok :: t' => if ok then failures t' else s :: failures t'
  end.

(** The taxonomy of failures. *)
Inductive FailureClass :=
| ClientInputError
| AuthError
| ProcessingError
| StorageError.

(** Bad identifier, malformed form, unparseable or unacceptable content
    type are client input errors; missing or invalid token and wrong owner
    are authentication errors; failures of the probe and of the rewriter,
    an empty or missing output included, are processing errors; all other
    failures (staging, object store, metadata store) are storage errors. *)
Definition class_of (s : Step) : FailureClass :=
  match s with
  | UuidParse | ParseForm | ParseMediaType | AllowedMediaType =>
      ClientInputError
  | GetBearerToken | ValidateJWT | OwnerIsUser => AuthError
  | RunFfprobe | Unmarshal | HasStreams
  | RunFfmpeg | Stat | NonEmptyOutput => ProcessingError
  | GetVideo | CreateTemp | CreateFile | Copy | Seek | Remove | RandRead
  | OpenFile | PutObject | UpdateVideo | PresignGetObject => StorageError
  end.

(** Client input errors map to 4xx, authentication errors to 401,
    processing and storage errors to 5xx. *)
Definition status_in_class (c : FailureClass) (code : Z) : Prop :=
  match c with
  | ClientInputError => 400 <= code < 500
  | AuthError => code = 401
  | ProcessingError | StorageError => 500 <= code < 600
  end.

(** The outcome of the checks a handler makes on a request before it
    stages anything: refused, with the class the taxonomy gives to the
    check that refused it, or accepted, with what the checks have found. *)
Inductive Admission (A : Type) : Type :=
| Refused (c : FailureClass)
| Accepted (a : A).
Arguments Refused {A} c.
Arguments Accepted {A} a.

(** The checks of a video upload, read off the request, the collaborators'
    answers and the metadata store, in the order of the handler: the
    identifier, the token, the record, its owner, the form field and its
    content type. *)
Definition video_admission (env : Env) (cfg : apiConfig) (r : Request)
    (w : World) : Admission (Video * Part) :=
  match ext_uuid_Parse env (PathValue r "videoID") with
  | Err _ => Refused ClientInputError
  | Ok videoID =>
  match ext_GetBearerToken env (Header r) with
  | Err _ => Refused AuthError
  | Ok token =>
  match ext_ValidateJWT env token (jwtSecret cfg) with
  | Err _ => Refused AuthError
  | Ok userID =>
  match ext_GetVideo_fault env videoID with
  | Some _ => Refused StorageError
  | None =>
  match db w !! videoID with
  | None => Refused StorageError
  | Some video =>
  if negb (N.eqb (UserID video) userID) then Refused AuthError else
  match FormFile r "video" with
  | Err _ => Refused ClientInputError
  | Ok part =>
  match ext_ParseMediaType env (part_ContentType part) with
  | Err _ => Refused ClientInputError
  | Ok mediaType =>
  if negb (String.eqb mediaType "video/mp4") then Refused ClientInputError
  else Accepted (video, part)
  end end end end end end end.

(** The checks of a thumbnail upload that come before the file is written:
    the identifier, the token, the form field and its content type, which
    is to be image/jpeg or image/png. The owner is compared later. *)
Definition thumbnail_admission (env : Env) (cfg : apiConfig) (r : Request)
    : Admission (UUID * UUID * Part) :=
  match ext_uuid_Parse env (PathValue r "videoID") with
  | Err _ => Refused ClientInputError
  | Ok videoID =>
  match ext_GetBearerToken env (Header r) with
  | Err _ => Refused AuthError
  | Ok token =>
  match ext_ValidateJWT env token (jwtSecret cfg) with
  | Err _ => Refused AuthError
  | Ok userID =>
  match FormFile r "thumbnail" with
  | Err _ => Refused ClientInputError
  | Ok part =>
  match ext_ParseMediaType env (part_ContentType part) with
  | Err _ => Refused ClientInputError
  | Ok mediaType =>
  if negb (String.eqb mediaType "image/jpeg"
           || String.eqb mediaType "image/png")
  then Refused ClientInputError
  else Accepted (videoID, userID, part)
  end end end end end.

(** The run answered with an error whose status is that of the class [c],
    and the one step that failed is of that class. *)
Definition refused_with (c : FailureClass) (run : World * Exit unit) : Prop :=
  exists code msg err s,
    sent run.1 = Some (RespError code msg err) /\
    status_in_class c code /\
    failures (trace run.1) = [s] /\ class_of s = c.

Definition server_side (s : Step) : Prop :=
  class_of s = ProcessingError \/ class_of s = StorageError.

(** The status of a video upload, by cause. A request that a check refuses
    is answered with the status of the class of that check. A request that
    passes the checks is answered with 200 when no step failed, and with a
    5xx status when one step failed, a processing or a storage step; or it
    is not answered at all: the random source failed and the handler
    panicked. *)
Definition video_status_by_cause (env : Env) (cfg : apiConfig) (r : Request)
    (w : World) (run : World * Exit unit) : Prop :=
  match video_admission env cfg r w with
  | Refused c => refused_with c run
  | Accepted _ =>
      match sent run.1 with
      | Some (RespJSON code _) =>
          code = StatusOK /\ failures (trace run.1) = []
      | Some (RespError code _ _) =>
          500 <= code < 600 /\
          exists s, failures (trace run.1) = [s] /\ server_side s
      | None =>
          failures (trace run.1) = [RandRead] /\
          exists msg, run.2 = Panicked msg
      end
  end.

(** The status of a thumbnail upload, by cause. As for a video upload,
    except that the owner is compared after the checks: a request that
    passes them is answered with 200 only if the user owns the video, and
    with 401 when the user does not own it and no step failed before the
    comparison. *)
Definition thumbnail_status_by_cause (env : Env) (cfg : apiConfig)
    (r : Request) (w : World) (run : World * Exit unit) : Prop :=
  match thumbnail_admission env cfg r with
  | Refused c => refused_with c run
  | Accepted (videoID, userID, _) =>
      match sent run.1 with
      | Some (RespJSON code _) =>
          code = StatusOK /\ failures (trace run.1) = [] /\
          exists video, db w !! videoID = Some video /\ UserID video = userID
      | Some (RespError code _ _) =>
          (code = 401 /\ failures (trace run.1) = [OwnerIsUser] /\
           exists video, db w !! videoID = Some video /\
                         UserID video <> userID) \/
          (500 <= code < 600 /\
           exists s, failures (trace run.1) = [s] /\ server_side s)
      | None =>
          failures (trace run.1) = [RandRead] /\
          exists msg, run.2 = Panicked msg
      end
  end.

(** The steps that act on the local files, the object store or the
    metadata store. *)
Definition has_effect (s : Step) : bool :=
  match s with
  | CreateTemp | CreateFile | Copy | Remove | RunFfmpeg
  | PutObject | UpdateVideo => true
  | _ => false
  end.

Definition effects (t : list Event) : list Event :=
  List.filter (fun e => match e with Did s _ _ => has_effect s end) t.

(** The request was refused because the user is not the owner. *)
Definition denied (t : list Event) : bool :=
  existsb (fun e => match e with
                    | Did OwnerIsUser _ false => true
                    | _ => false
                    end) t.

(** The rewriter stage failed: the process, the check that its output
    exists, or the check that its output is not empty. *)
Definition rewrite_failed (t : list Event) : bool :=
  existsb (fun e => match e with
                    | Did RunFfmpeg _ false | Did Stat _ false
                    | Did NonEmptyOutput _ false => true
                    | _ => false
                    end) t.

Definition put_attempted (t : list Event) : bool :=
  existsb (fun e => match e with
                    | Did PutObject _ _ => true
                    | _ => false
                    end) t.

(** The names of the temporary files that were created. *)
Definition staged (t : list Event) : list string :=
  flat_map (fun e => match e with
                     | Did CreateTemp args true => args
                     | _ => []
                     end) t.

(** What a successful video upload leaves behind, for the record that the
    request names: the object under the
    configured bucket and the generated key, the record persisted with the
    composite reference "bucket,key" in its video-URL field, and a payload
    whose video-URL field is the URL the signer returned for the first two
    comma-separated parts of that reference, which are the bucket and the
    key when neither contains a comma. *)
Definition persisted_composite (env : Env) (cfg : apiConfig) (r : Request)
    (w w' : World) (code : Z) (payload : Video) : Prop :=
  exists videoID video directory id body presigned,
    let key := ext_Join env directory (id ++ ".mp4") in
    let composite := s3Bucket cfg ++ "," ++ key in
    ext_uuid_Parse env (PathValue r "videoID") = Ok videoID /\
    db w !! videoID = Some video /\
    code = StatusOK /\
    (directory = "landscape" \/ directory = "portrait" \/
     directory = "other") /\
    String.length id = 43%nat /\
    s3 w' !! (s3Bucket cfg, key) = Some (body, "video/mp4") /\
    db w' !! ID video = Some (with_VideoURL video (Some composite)) /\
    payload = with_VideoURL video (Some presigned) /\
    ext_Presign env (nth 0 (strings.Split composite ","%char) "")
      (nth 1 (strings.Split composite ","%char) "") five_minutes
    = Ok presigned /\
    (strings.Contains (s3Bucket cfg) ","%char = false ->
     strings.Contains key ","%char = false ->
     ext_Presign env (s3Bucket cfg) key five_minutes = Ok presigned).

(** ** Reasoning about runs *)

(** [wp m w Q]: running [m] in [w] ends in a world and an exit that
    satisfy [Q]. *)
Definition wp {A} (m : M A) (w : World) (Q : World -> Exit A -> Prop)
    : Prop :=
  Q (m w).1 (m w).2.

(** Marks the postcondition of a whole run. *)
Definition post (P : Prop) : Prop := P.

(** ** The first revision of the video handler (handler_upload_video.go)

    It uploads the staged file as it is and persists the URL that
    [cfg.getObjectURL] gives for the key; that method is declared with the
    configuration and is a parameter here. *)

Module Revision1.
Section Handler.

Variable env : Env.
Variable cfg : apiConfig.
Variable getObjectURL : string -> string.

(** What a reader of the open temporary file yields after the seek. *)
Definition read_all (path : string) : M (list byte) := fun w =>
  (w, Next (default [] (fs w !! path))).

Definition handlerUploadVideo (r : Request) : M unit :=
  let videoIDString := PathValue r "videoID" in
  let* videoID := on_err (uuid_Parse env videoIDString) (fun err =>
    respondWithError StatusBadRequest "Invalid ID" (Some err)) in
  let* token := on_err (auth_GetBearerToken env (Header r)) (fun err =>
    respondWithError StatusUnauthorized "Couldn't validate JWT" (Some err)) in
  let* userID := on_err (auth_ValidateJWT env token (jwtSecret cfg))
    (fun err =>
       respondWithError StatusUnauthorized "Couldn't validate JWT"
         (Some err)) in
  let* video := on_err (db_GetVideo env videoID) (fun err =>
    respondWithError StatusInternalServerError "Couldn't find video"
      (Some err)) in
  let* _ := require OwnerIsUser (N.eqb (UserID video) userID)
    (respondWithError StatusUnauthorized
       "Not authorized to update this video" None) in
  let* part := on_err (r_FormFile r "video") (fun err =>
    respondWithError StatusBadRequest "Unable to parse form file"
      (Some err)) in
  let* mediaType := on_err (mime_ParseMediaType env (part_ContentType part))
    (fun err =>
       respondWithError StatusBadRequest "Invalid Content-Type" (Some err)) in
  let* _ := require AllowedMediaType (String.eqb mediaType "video/mp4")
    (respondWithError StatusBadRequest
       "Invalid file type, only MP4 is allowed" None) in
  let* tempFile := on_err (os_CreateTemp env "" "tubely-upload.mp4")
    (fun err =>
       respondWithError StatusInternalServerError
         "Could not create temp file" (Some err)) in
  defer (os_Remove tempFile) (
    let* _ := on_err (io_Copy env tempFile (part_data part)) (fun err =>
      respondWithError StatusInternalServerError
        "Could not write file to disk" (Some err)) in
    let* _ := on_err (file_Seek env tempFile) (fun err =>
      respondWithError StatusInternalServerError
        "Could not reset file pointer" (Some err)) in
    let* aspectRatio := on_err (getVideoAspectRatio env tempFile) (fun err =>
      respondWithError StatusInternalServerError
        "Error determining aspect ratio" (Some err)) in
    let directory := directory_of aspectRatio in
    let* key := getAssetPath env mediaType in
    let key := ext_Join env directory key in
    let* body := read_all tempFile in
    let* _ := on_err (s3_PutObject env (s3Bucket cfg) key body mediaType)
      (fun err =>
         respondWithError StatusInternalServerError
           "Error uploading file to S3" (Some err)) in
    let url := getObjectURL key in
    let video := with_VideoURL video (Some url) in
    let* _ := on_err (db_UpdateVideo env video) (fun err =>
      respondWithError StatusInternalServerError "Couldn't update video"
        (Some err)) in
    respondWithJSON StatusOK video).

End Handler.
End Revision1.

(** ** The assets directory (assets.go) *)

(** The two kinds of error of [os.Stat] that [os.IsNotExist] tells
    apart. *)
Inductive StatError :=
| NotExist
| OtherStatError (e : error).

(** The faults the operating system may raise on a path, apart from the
    path not existing. *)
Record DiskFaults := {
  fault_Stat : string -> option error;
  fault_Mkdir : string -> option error;
}.

(** [os.Stat(path)] over the set of paths that exist: its error. *)
Definition stat_error (faults : DiskFaults) (entries : gset string)
    (path : string) : option StatError :=
  match fault_Stat faults path with
  | Some e => Some (OtherStatError e)
  | None => if bool_decide (path ∈ entries) then None else Some NotExist
  end.

Definition os_IsNotExist (err : option StatError) : bool :=
  match err with
  | Some NotExist => true
  | _ => false
  end.

(** [os.Mkdir(path, 0755)]: fails on a path that exists. *)
Definition os_Mkdir (faults : DiskFaults) (entries : gset string)
    (path : string) : gset string * option error :=
  match fault_Mkdir faults path with
  | Some e => (entries, Some e)
  | None =>
      if bool_decide (path ∈ entries)
      then (entries, Some ("mkdir " ++ path ++ ": file exists"))
      else ({[path]} ∪ entries, None)
  end.

Definition ensureAssetsDir (faults : DiskFaults) (cfg : apiConfig)
    (entries : gset string) : gset string * option error :=
  if os_IsNotExist (stat_error faults entries (assetsRoot cfg))
  then os_Mkdir faults entries (assetsRoot cfg)
  else (entries, None).

(** ** Vocabulary of the further properties *)

(** The run left the files, both stores and the response alone. *)
Definition same_stores (w w' : World) : Prop :=
  fs w' = fs w /\ s3 w' = s3 w /\ db w' = db w /\ sent w' = sent w.

(** The probe of the file succeeds and its first stream has this width and
    height. *)
Definition probes (env : Env) (filePath : string) (w : World)
    (width height : Z) : Prop :=
  exists stdout rest,
    ext_ffprobe env filePath (fs w) = (stdout, None) /\
    ext_Unmarshal env stdout = Ok ((width, height) :: rest).

Definition only_url_differs (video video' : Video) : Prop :=
  ID video' = ID video /\ UserID video' = UserID video /\
  ThumbnailURL video' = ThumbnailURL video.

(** The video handler stores at most one object, not empty, of type
    video/mp4, under the configured bucket; and it changes the metadata
    store only after that, by writing the composite reference of that
    object to one record, and then answers 200 or reports that signing
    failed. *)
Definition stored_then_persisted (cfg : apiConfig) (w w' : World) : Prop :=
  (s3 w' = s3 w /\ db w' = db w) \/
  exists key body,
    body <> [] /\
    s3 w' = <[(s3Bucket cfg, key) := (body, "video/mp4")]> (s3 w) /\
    (db w' = db w \/
     exists video,
       db w' = <[ID video :=
                  with_VideoURL video (Some (s3Bucket cfg ++ "," ++ key))]>
                 (db w) /\
       ((exists payload, sent w' = Some (RespJSON StatusOK payload)) \/
        exists e, sent w' = Some (RespError StatusInternalServerError
                                    "Couldn't generate presigned URL"
                                    (Some e)))).

(** What a successful thumbnail upload leaves behind. *)
Definition thumbnail_saved (env : Env) (cfg : apiConfig) (r : Request)
    (w w' : World) (code : Z) (payload : Video) : Prop :=
  exists videoID video part mediaType id,
    let assetPath := id ++ mediaTypeToExt mediaType in
    let saved :=
      with_ThumbnailURL video
        (Some ("http://localhost:" ++ port cfg ++ "/assets/" ++ assetPath)) in
    ext_uuid_Parse env (PathValue r "videoID") = Ok videoID /\
    db w !! videoID = Some video /\
    FormFile r "thumbnail" = Ok part /\
    ext_ParseMediaType env (part_ContentType part) = Ok mediaType /\
    (mediaType = "image/jpeg" \/ mediaType = "image/png") /\
    String.length id = 43%nat /\
    code = StatusOK /\
    payload = saved /\
    db w' = <[ID video := saved]> (db w) /\
    fs w' = <[ext_Join env (assetsRoot cfg) assetPath := part_data part]>
              (<[ext_Join env (assetsRoot cfg) assetPath := []]> (fs w)) /\
    s3 w' = s3 w.

(** What a successful upload through the first revision leaves behind. *)
Definition uploaded_directly (env : Env) (cfg : apiConfig)
    (getObjectURL : string -> string) (r : Request)
    (w w' : World) (code : Z) (payload : Video) : Prop :=
  exists videoID video part directory id,
    let key := ext_Join env directory (id ++ ".mp4") in
    let saved := with_VideoURL video (Some (getObjectURL key)) in
    ext_uuid_Parse env (PathValue r "videoID") = Ok videoID /\
    db w !! videoID = Some video /\
    FormFile r "video" = Ok part /\
    (directory = "landscape" \/ directory = "portrait" \/
     directory = "other") /\
    String.length id = 43%nat /\
    code = StatusOK /\
    payload = saved /\
    db w' = <[ID video := saved]> (db w) /\
    s3 w' = <[(s3Bucket cfg, key) := (part_data part, "video/mp4")]> (s3 w).

(** The position of a character in a string, the length if it is not
    there. *)
Fixpoint index_in (s : string) (c : ascii) : N :=
  match s with
  | EmptyString => 0%N
  | String x s' => if Ascii.eqb x c then 0%N else N.succ (index_in s' c)
  end.

(** * Properties *)

(** ** Splitting strings *)

Lemma Split_not_nil (s : string) (c : ascii) : strings.Split s c <> [].
Proof.
  destruct s as [|a s]; simpl; [discriminate|].
  destruct (Ascii.eqb a c); [discriminate|].
  destruct (strings.Split s c); discriminate.
Qed.

Lemma Split_no_sep (s : string) (c : ascii) :
  strings.Contains s c = false -> strings.Split s c = [s].
Proof.
  induction s as [|a s IH]; simpl; [reflexivity|].
  destruct (Ascii.eqb a c); simpl; [discriminate|].
  intros H. rewrite (IH H). reflexivity.
Qed.

Lemma Split_app_sep (a b : string) (c : ascii) :
  strings.Contains a c = false ->
  strings.Split (a ++ String c b) c = a :: strings.Split b c.
Proof.
  induction a as [|x a IH]; simpl.
  - intros _. rewrite Ascii.eqb_refl. reflexivity.
  - destruct (Ascii.eqb x c); simpl; [discriminate|].
    intros H. rewrite (IH H). reflexivity.
Qed.

Lemma Split_cons_inv (s : string) (c : ascii) (a : string) (rest : list string) :
  strings.Split s c = a :: rest ->
  strings.Contains a c = false /\
  (rest = [] /\ s = a \/
   exists s', s = a ++ String c s' /\ strings.Split s' c = rest).
Proof.
  revert a rest. induction s as [|x s IH]; simpl; intros a rest H.
  - injection H as <- <-. split; [reflexivity|]. left. split; reflexivity.
  - destruct (Ascii.eqb x c) eqn:E.
    + apply Ascii.eqb_eq in E. subst x. injection H as <- <-.
      split; [reflexivity|]. right. exists s. split; reflexivity.
    + destruct (strings.Split s c) as [|p ps] eqn:Hs.
      * exfalso. exact (Split_not_nil s c Hs).
      * injection H as <- <-.
        destruct (IH p ps eq_refl) as [Hp Hrest]. simpl. rewrite E, Hp.
        split; [reflexivity|].
        destruct Hrest as [[-> ->]|[s' [-> Hs']]].
        -- left. split; reflexivity.
        -- right. exists s'. split; [reflexivity | exact Hs'].
Qed.

(** Exactly two parts: one separator, between the two parts. *)
Lemma Split_two (s : string) (c : ascii) (a b : string) :
  strings.Split s c = [a; b] <->
  s = a ++ String c b /\ strings.Contains a c = false /\
  strings.Contains b c = false.
Proof.
  split.
  - intros H. destruct (Split_cons_inv s c a [b] H) as [Ha [[Hn _]|[s' [-> Hs']]]];
      [discriminate|].
    destruct (Split_cons_inv s' c b [] Hs') as [Hb [[_ ->]|[s'' [_ Hs'']]]].
    + repeat split; assumption.
    + exfalso. exact (Split_not_nil s'' c Hs'').
  - intros [-> [Ha Hb]]. rewrite (Split_app_sep a b c Ha).
    rewrite (Split_no_sep b c Hb). reflexivity.
Qed.

(** Fewer than two parts: no separator at all. *)
Lemma Split_short (s : string) (c : ascii) :
  (length (strings.Split s c) <? 2)%nat = negb (strings.Contains s c).
Proof.
  induction s as [|x s IH]; simpl; [reflexivity|].
  destruct (Ascii.eqb x c); simpl.
  - destruct (strings.Split s c) eqn:Hs; [|reflexivity].
    exfalso. exact (Split_not_nil s c Hs).
  - rewrite <- IH. destruct (strings.Split s c) eqn:Hs; reflexivity.
Qed.

Lemma Contains_app (a b : string) (c : ascii) :
  strings.Contains (a ++ b) c = strings.Contains a c || strings.Contains b c.
Proof.
  induction a as [|x a IH]; simpl; [reflexivity|].
  rewrite IH. apply orb_assoc.
Qed.

(** ** The encoding of the random identifier *)

Lemma encode_is_url_char (i : N) : is_url_char (base64.encode i) = true.
Proof.
  unfold base64.encode. generalize (N.to_nat i). intros n.
  do 65 (destruct n as [|n]; [reflexivity|]). reflexivity.
Qed.

Lemma EncodeToString_chars (src : list byte) :
  all_chars is_url_char (base64.EncodeToString src) = true.
Proof.
  assert (H : forall n (l : list byte), (length l < n)%nat ->
             all_chars is_url_char (base64.EncodeToString l) = true).
  { induction n as [|n IH]; intros l Hl; [lia|].
    destruct l as [|b0 [|b1 [|b2 rest]]];
      cbn [base64.EncodeToString all_chars]; unfold base64.sextet;
      rewrite ?encode_is_url_char; try reflexivity.
    cbn [andb]. apply IH. simpl in Hl. lia. }
  apply (H (S (length src))). lia.
Qed.

Lemma EncodeToString_length (src : list byte) :
  String.length (base64.EncodeToString src)
  = ((4 * length src + 2) / 3)%nat.
Proof.
  assert (H : forall n (l : list byte), (length l < n)%nat ->
             String.length (base64.EncodeToString l)
             = ((4 * length l + 2) / 3)%nat).
  { induction n as [|n IH]; intros l Hl; [lia|].
    destruct l as [|b0 [|b1 [|b2 rest]]]; try reflexivity.
    cbn [base64.EncodeToString String.length].
    rewrite IH by (simpl in Hl; lia).
    change (length (b0 :: b1 :: b2 :: rest)) with (S (S (S (length rest)))).
    replace (4 * S (S (S (length rest))) + 2)%nat
      with ((4 * length rest + 2) + 4 * 3)%nat by lia.
    rewrite Nat.div_add by lia. lia. }
  apply (H (S (length src))). lia.
Qed.

Lemma all_chars_Contains (p : ascii -> bool) (s : string) (c : ascii) :
  all_chars p s = true -> p c = false -> strings.Contains s c = false.
Proof.
  induction s as [|x s IH]; simpl; [reflexivity|].
  intros H Hc. apply andb_true_iff in H as [Hx Hs].
  rewrite (IH Hs Hc), orb_false_r.
  destruct (Ascii.eqb x c) eqn:E; [|reflexivity].
  apply Ascii.eqb_eq in E. congruence.
Qed.

Lemma length_app_string (a b : string) :
  String.length (a ++ b) = (String.length a + String.length b)%nat.
Proof. induction a as [|x a IH]; simpl; [reflexivity | now rewrite IH]. Qed.

(** ** Asset paths *)

(** In terms of the string itself: a type and a subtype without "/" around
    one "/" give the subtype; a string without "/" gives ".bin". *)
Lemma mediaTypeToExt_type_subtype (type subtype : string) :
  strings.Contains type "/"%char = false ->
  strings.Contains subtype "/"%char = false ->
  mediaTypeToExt (type ++ "/" ++ subtype) = "." ++ subtype.
Proof.
  intros Ht Hs. unfold mediaTypeToExt.
  replace (strings.Split (type ++ "/" ++ subtype) "/"%char)
    with [type; subtype]; [reflexivity|].
  symmetry. apply Split_two. repeat split; assumption.
Qed.

Lemma mediaTypeToExt_no_slash (mediaType : string) :
  strings.Contains mediaType "/"%char = false ->
  mediaTypeToExt mediaType = ".bin".
Proof.
  intros H. unfold mediaTypeToExt. rewrite (Split_no_sep _ _ H). reflexivity.
Qed.

(** C8. [mediaTypeToExt] returns "." followed by the subtype when the media
    type splits into exactly two parts on "/", and ".bin" otherwise; every
    asset path that [getAssetPath] generates is an identifier without "."
    followed by that extension. *)
Theorem mediaTypeToExt_subtype_or_bin (mediaType : string) :
  (forall a b, strings.Split mediaType "/"%char = [a; b] ->
     mediaTypeToExt mediaType = "." ++ b) /\
  (length (strings.Split mediaType "/"%char) <> 2%nat ->
     mediaTypeToExt mediaType = ".bin") /\
  (forall env w path,
     (getAssetPath env mediaType w).2 = Next path ->
     exists id, path = id ++ mediaTypeToExt mediaType /\
                strings.Contains id "."%char = false).
Proof.
  split; [|split].
  - intros a b H. unfold mediaTypeToExt. rewrite H. reflexivity.
  - intros H. unfold mediaTypeToExt.
    destruct (Nat.eqb_spec (length (strings.Split mediaType "/"%char)) 2);
      [contradiction | reflexivity].
  - intros env w path. unfold getAssetPath, bind, rand_Read.
    destruct (ext_rand_Read env 32) as [bytes [e|]]; simpl; [discriminate|].
    intros H. injection H as <-. eexists. split; [reflexivity|].
    apply (all_chars_Contains is_url_char); [apply EncodeToString_chars|].
    reflexivity.
Qed.

Lemma mediaTypeToExt_subtype_or_bin_witness :
  mediaTypeToExt "image/png" = ".png" /\ mediaTypeToExt "mp4" = ".bin" /\
  exists id,
    "KioqKioqKioqKioqKioqKioqKioqKioqKioqKioqKio.png"
    = id ++ mediaTypeToExt "image/png" /\
    strings.Contains id "."%char = false.
Proof.
  split; [|split].
  - exact (proj1 (mediaTypeToExt_subtype_or_bin "image/png")
             "image" "png" eq_refl).
  - apply (proj1 (proj2 (mediaTypeToExt_subtype_or_bin "mp4"))).
    vm_compute. discriminate.
  - apply (proj2 (proj2 (mediaTypeToExt_subtype_or_bin "image/png"))
             Sample.env Sample.world).
    vm_compute. reflexivity.
Defined.


Lemma valid_media_type_ext (mediaType : string) :
  valid_media_type mediaType = true ->
  exists subtype, mediaTypeToExt mediaType = "." ++ subtype /\
                  all_chars is_token_char subtype = true.
Proof.
  unfold valid_media_type, mediaTypeToExt.
  destruct (strings.Split mediaType "/"%char) as [|t [|sub [|x rest]]];
    try discriminate.
  intros H. apply andb_true_iff in H as [_ H].
  apply andb_true_iff in H as [_ H].
  exists sub. split; [reflexivity | exact H].
Qed.

Lemma asset_path_segment (id subtype : string) :
  all_chars is_url_char id = true ->
  (2 < String.length id)%nat ->
  all_chars is_token_char subtype = true ->
  valid_path_segment (id ++ "." ++ subtype).
Proof.
  intros Hid Hlen Hsub.
  assert (Hne : forall s : string, (String.length s < 3)%nat ->
            id ++ "." ++ subtype <> s).
  { intros s Hs E. apply (f_equal String.length) in E.
    rewrite length_app_string in E. lia. }
  assert (Hno : forall c, is_url_char c = false -> is_token_char c = false ->
            Ascii.eqb "."%char c = false ->
            strings.Contains (id ++ "." ++ subtype) c = false).
  { intros c Hu Ht Hd. rewrite Contains_app.
    change ("." ++ subtype) with (String "."%char subtype).
    cbn [strings.Contains]. rewrite Hd.
    rewrite (all_chars_Contains _ _ _ Hid Hu).
    rewrite (all_chars_Contains _ _ _ Hsub Ht). reflexivity. }
  unfold valid_path_segment.
  split; [apply Hne; simpl; lia|].
  split; [apply Hne; simpl; lia|].
  split; [apply Hne; simpl; lia|].
  split; apply Hno; reflexivity.
Qed.

(** C9, as amended. For a syntactically valid media type, when the random
    source delivers its bytes [getAssetPath] returns the 32 random bytes in
    the unpadded URL-safe encoding, 43 characters long, followed by the
    extension of the media type, and that is a valid relative path segment;
    when reading the random bytes fails, [getAssetPath] panics. *)
Theorem getAssetPath_random_id (env : Env) (mediaType : string) (w : World) :
  valid_media_type mediaType = true ->
  match ext_rand_Read env 32 with
  | (_, Some _) =>
      (getAssetPath env mediaType w).2
      = Panicked "failed to generate random bytes"
  | (bytes, None) =>
      let base := resize 32 x00 bytes in
      let id := base64.EncodeToString base in
      length base = 32%nat /\
      (getAssetPath env mediaType w).2 = Next (id ++ mediaTypeToExt mediaType)
      /\ String.length id = 43%nat
      /\ all_chars is_url_char id = true
      /\ valid_path_segment (id ++ mediaTypeToExt mediaType)
  end.
Proof.
  intros Hvalid. unfold getAssetPath, bind, rand_Read.
  destruct (ext_rand_Read env 32) as [bytes [e|]]; simpl; [reflexivity|].
  assert (Hlen : String.length
            (base64.EncodeToString (resize 32 x00 bytes)) = 43%nat).
  { rewrite EncodeToString_length, length_resize. reflexivity. }
  split; [apply length_resize|].
  split; [reflexivity|].
  split; [exact Hlen|].
  split; [apply EncodeToString_chars|].
  destruct (valid_media_type_ext mediaType Hvalid) as [subtype [-> Hsub]].
  apply asset_path_segment; [apply EncodeToString_chars | lia | exact Hsub].
Qed.

Lemma getAssetPath_random_id_witness :
  (getAssetPath Sample.env "video/mp4" Sample.world).2
  = Next "KioqKioqKioqKioqKioqKioqKioqKioqKioqKioqKio.mp4".
Proof.
  exact (proj1 (proj2
    (getAssetPath_random_id Sample.env "video/mp4" Sample.world eq_refl))).
Defined.

(** C9, as stated, fails: with a random source that reports an error,
    [getAssetPath] panics on the valid media type "video/mp4". *)
Lemma getAssetPath_can_panic :
  ~ (forall env mediaType w,
       valid_media_type mediaType = true ->
       exists path, (getAssetPath env mediaType w).2 = Next path).
Proof.
  intros H.
  destruct (H Sample.env_no_entropy "video/mp4" Sample.world eq_refl)
    as [path Hpath].
  vm_compute in Hpath. discriminate.
Qed.

(** ** Geometry inspector *)

Lemma wrap64_small (z : Z) : - 2 ^ 63 <= z < 2 ^ 63 -> wrap64 z = z.
Proof. intros H. unfold wrap64. rewrite Z.mod_small; lia. Qed.

(** Without overflow the first test of the code is a truncated division:
    the width is the integer part of 16/9 of the height. *)
Lemma wide_test_truncates (width height : Z) :
  0 <= height < 2 ^ 59 ->
  (width = int_div (int_mul 16 height) 9
   <-> 9 * width <= 16 * height < 9 * width + 9).
Proof.
  intros H. unfold int_div, int_mul.
  rewrite (wrap64_small (16 * height)) by lia.
  rewrite Z.quot_div_nonneg by lia.
  assert (0 <= 16 * height / 9 <= 16 * height).
  { split; [apply Z.div_pos; lia|]. apply Z.div_le_upper_bound; lia. }
  rewrite wrap64_small by lia.
  pose proof (Z.div_mod (16 * height) 9 ltac:(lia)).
  pose proof (Z.mod_pos_bound (16 * height) 9 ltac:(lia)).
  split; intros; [subst width; lia|].
  apply Z.div_unique with (r := 16 * height - 9 * width); lia.
Qed.

(** In particular an exact 16:9 frame passes the first test. *)
Lemma exact_ratio_is_wide (width height : Z) :
  0 <= height < 2 ^ 59 -> width * 9 = height * 16 ->
  width = int_div (int_mul 16 height) 9.
Proof. intros H E. apply wide_test_truncates; lia. Qed.

(** C1, as amended. After a successful probe whose first stream reports
    [width] and [height], the bucket is "16:9" iff the width equals
    16*height/9 in 64-bit integer arithmetic (quotient truncated toward
    zero), "9:16" iff that fails and the height equals 16*width/9, and
    "other" otherwise; the handler maps "16:9" to the key prefix
    "landscape" and "9:16" to "portrait"; 1920x1080 is "16:9", 1080x1920
    is "9:16" and 1000x1000 is "other". *)
Theorem getVideoAspectRatio_buckets (env : Env) (filePath : string)
    (w : World) (stdout : string) (width height : Z) (rest : list (Z * Z)) :
  ext_ffprobe env filePath (fs w) = (stdout, None) ->
  ext_Unmarshal env stdout = Ok ((width, height) :: rest) ->
  exists bucket,
    (getVideoAspectRatio env filePath w).2 = Next (Ok bucket) /\
    (bucket = "16:9" <-> width = int_div (int_mul 16 height) 9) /\
    (bucket = "9:16" <->
       width <> int_div (int_mul 16 height) 9 /\
       height = int_div (int_mul 16 width) 9) /\
    (bucket = "other" <->
       width <> int_div (int_mul 16 height) 9 /\
       height <> int_div (int_mul 16 width) 9) /\
    (directory_of bucket = "landscape" <-> bucket = "16:9") /\
    (directory_of bucket = "portrait" <-> bucket = "9:16") /\
    (width = 1920 -> height = 1080 -> bucket = "16:9") /\
    (width = 1080 -> height = 1920 -> bucket = "9:16") /\
    (width = 1000 -> height = 1000 -> bucket = "other").
Proof.
  intros Hrun Hparse.
  unfold getVideoAspectRatio, bind, run_ffprobe, json_Unmarshal, pure_call,
    call.
  rewrite Hrun. cbn. rewrite Hparse. cbn.
  destruct (Z.eqb_spec width (int_div (int_mul 16 height) 9)) as [E1|N1].
  - eexists. split; [reflexivity|].
    do 5 (split; [split; intros; try reflexivity; try discriminate; tauto|]).
    repeat split; intros -> ->; try reflexivity;
      vm_compute in E1; discriminate.
  - destruct (Z.eqb_spec height (int_div (int_mul 16 width) 9)) as [E2|N2];
      (eexists; split; [reflexivity|]).
    + do 5 (split; [split; intros; try reflexivity; try discriminate; tauto|]).
      repeat split; intros -> ->; try reflexivity;
        vm_compute in N1; vm_compute in E2; congruence.
    + do 5 (split; [split; intros; try reflexivity; try discriminate; tauto|]).
      repeat split; intros -> ->; try reflexivity;
        vm_compute in N1; vm_compute in N2; congruence.
Qed.

Lemma getVideoAspectRatio_buckets_witness :
  (getVideoAspectRatio (Sample.env_probing 1080 1920) "/tmp/clip.mp4"
     Sample.world).2 = Next (Ok "9:16").
Proof.
  destruct (getVideoAspectRatio_buckets (Sample.env_probing 1080 1920)
              "/tmp/clip.mp4" Sample.world "{}" 1080 1920 [] eq_refl eq_refl)
    as [bucket [Hrun [_ [_ [_ [_ [_ [_ [Htall _]]]]]]]]].
  rewrite Hrun, (Htall eq_refl eq_refl). reflexivity.
Defined.

(** C1, as stated, fails: a probe reporting 853x480 is put in the wide
    bucket although 853*9 differs from 480*16. *)
Lemma getVideoAspectRatio_not_exact :
  ~ (forall env filePath w stdout width height rest,
       ext_ffprobe env filePath (fs w) = (stdout, None) ->
       ext_Unmarshal env stdout = Ok ((width, height) :: rest) ->
       exists bucket,
         (getVideoAspectRatio env filePath w).2 = Next (Ok bucket) /\
         (bucket = "16:9" <-> width * 9 = height * 16) /\
         (bucket = "9:16" <-> height * 9 = width * 16) /\
         (bucket = "other" <->
            width * 9 <> height * 16 /\ height * 9 <> width * 16)).
Proof.
  intros H.
  destruct (H (Sample.env_probing 853 480) "/tmp/clip.mp4" Sample.world "{}"
              853 480 [] eq_refl eq_refl) as [bucket [Hrun [Hwide _]]].
  vm_compute in Hrun. injection Hrun as <-.
  pose proof (proj1 Hwide eq_refl). discriminate.
Qed.

(** ** URL signing adapter *)

(** C5, as amended. [dbVideoToSignedVideo] passes the record through
    unchanged, without error and without calling the signer, when the
    video-URL field is unset and when the stored reference contains no
    comma; a reference with at least one comma is signed with its first
    two comma-separated parts as bucket and key, whatever follows them, and
    on success the field is replaced by the presigned URL. *)
Theorem dbVideoToSignedVideo_passes_or_signs (env : Env) (video : Video)
    (w : World) :
  match VideoURL video with
  | None => dbVideoToSignedVideo env video w = (w, Next (video, None))
  | Some url =>
      if strings.Contains url ","%char then
        exists bucket key rest,
          strings.Split url ","%char = bucket :: key :: rest /\
          match ext_Presign env bucket key five_minutes with
          | Ok presigned =>
              (dbVideoToSignedVideo env video w).2
              = Next (with_VideoURL video (Some presigned), None)
          | Err e =>
              (dbVideoToSignedVideo env video w).2
              = Next (video, Some ("failed to generate presigned URL: " ++ e))
          end
      else dbVideoToSignedVideo env video w = (w, Next (video, None))
  end.
Proof.
  unfold dbVideoToSignedVideo.
  destruct (VideoURL video) as [url|]; [|reflexivity].
  rewrite Split_short.
  destruct (strings.Contains url ","%char) eqn:Hc; [|reflexivity].
  pose proof (Split_short url ","%char) as Hlen. rewrite Hc in Hlen.
  destruct (strings.Split url ","%char) as [|bucket [|key rest]];
    try discriminate.
  exists bucket, key, rest. split; [reflexivity|].
  cbn [negb nth]. unfold generatePresignedURL, s3_PresignGetObject,
    pure_call, call, bind.
  destruct (ext_Presign env bucket key five_minutes); reflexivity.
Qed.

(** C5, as stated, fails: the reference "tubely,landscape/clip,final.mp4"
    has three parts, yet the field is replaced, by a URL signed for the key
    "landscape/clip". *)
Lemma dbVideoToSignedVideo_signs_three_parts :
  ~ (forall env video w url,
       VideoURL video = Some url ->
       (forall bucket key, strings.Split url ","%char <> [bucket; key]) ->
       (dbVideoToSignedVideo env video w).2 = Next (video, None)).
Proof.
  intros H.
  specialize (H Sample.env
    (with_VideoURL Sample.video (Some "tubely,landscape/clip,final.mp4"))
    Sample.world "tubely,landscape/clip,final.mp4" eq_refl).
  assert (Hparts : forall bucket key,
            strings.Split "tubely,landscape/clip,final.mp4" ","%char
            <> [bucket; key]).
  { intros bucket key E. vm_compute in E. discriminate. }
  specialize (H Hparts). vm_compute in H. discriminate.
Qed.

(** C10. For a record with a well-formed "bucket,key" reference, when the
    presigned URL cannot be generated [dbVideoToSignedVideo] returns the
    record as it was, the URL field still holding the stored reference,
    together with the error. *)
Theorem dbVideoToSignedVideo_presign_error (env : Env) (video : Video)
    (w : World) (bucket key : string) (e : error) :
  strings.Contains bucket ","%char = false ->
  strings.Contains key ","%char = false ->
  VideoURL video = Some (bucket ++ "," ++ key) ->
  ext_Presign env bucket key five_minutes = Err e ->
  exists returned err,
    (dbVideoToSignedVideo env video w).2 = Next (returned, Some err) /\
    returned = video /\
    VideoURL returned = Some (bucket ++ "," ++ key) /\
    err = "failed to generate presigned URL: " ++ e.
Proof.
  intros Hb Hk Hurl Hsign. unfold dbVideoToSignedVideo. rewrite Hurl.
  replace (strings.Split (bucket ++ "," ++ key) ","%char)
    with [bucket; key]
    by (symmetry; apply Split_two; repeat split; assumption).
  cbn [length Nat.ltb Nat.leb nth].
  unfold generatePresignedURL, s3_PresignGetObject, pure_call, call, bind.
  rewrite Hsign. cbn.
  exists video, ("failed to generate presigned URL: " ++ e).
  repeat split; [exact Hurl].
Qed.

Lemma dbVideoToSignedVideo_presign_error_witness :
  exists returned err,
    (dbVideoToSignedVideo Sample.env_no_signer
       (with_VideoURL Sample.video (Some "tubely,landscape/clip.mp4"))
       Sample.world).2 = Next (returned, Some err) /\
    returned = with_VideoURL Sample.video (Some "tubely,landscape/clip.mp4") /\
    VideoURL returned = Some ("tubely" ++ "," ++ "landscape/clip.mp4") /\
    err = "failed to generate presigned URL: " ++ "operation error S3".
Proof.
  exact (dbVideoToSignedVideo_presign_error Sample.env_no_signer
           (with_VideoURL Sample.video (Some "tubely,landscape/clip.mp4"))
           Sample.world "tubely" "landscape/clip.mp4" "operation error S3"
           eq_refl eq_refl eq_refl eq_refl).
Defined.

(** ** Rules for runs *)

Lemma wp_ret {A} (a : A) w Q : Q w (Next a) -> wp (ret a) w Q.
Proof. exact id. Qed.

Lemma wp_return {A} w (Q : World -> Exit A -> Prop) :
  Q w Returned -> wp return_ w Q.
Proof. exact id. Qed.

Lemma wp_panic {A} msg w (Q : World -> Exit A -> Prop) :
  Q w (Panicked msg) -> wp (panic msg) w Q.
Proof. exact id. Qed.

Lemma wp_bind {A B} (m : M A) (k : A -> M B) w Q :
  wp m w (fun w1 x =>
    match x with
    | Next a => wp (k a) w1 Q
    | Returned => Q w1 Returned
    | Panicked msg => Q w1 (Panicked msg)
    end) ->
  wp (bind m k) w Q.
Proof. unfold wp, bind. destruct (m w) as [w1 [a| |msg]]; exact id. Qed.

Lemma wp_on_err {A} (m : M (result A)) (h : error -> M unit) w Q :
  wp m w (fun w1 x =>
    match x with
    | Next (Ok a) => Q w1 (Next a)
    | Next (Err e) => Q (h e w1).1 Returned
    | Returned => Q w1 Returned
    | Panicked msg => Q w1 (Panicked msg)
    end) ->
  wp (on_err m h) w Q.
Proof. unfold wp, on_err. destruct (m w) as [w1 [[a|e]| |msg]]; exact id. Qed.

Lemma wp_require s (cond : bool) (h : M unit) w Q :
  (if cond then Q (record_event (Did s [] true) w) (Next tt)
   else Q (h (record_event (Did s [] false) w)).1 Returned) ->
  wp (require s cond h) w Q.
Proof. unfold wp, require. destruct cond; exact id. Qed.

Lemma wp_defer {A} (cleanup : M unit) (body : M A) w Q :
  wp body w (fun w1 x => Q (cleanup w1).1 x) -> wp (defer cleanup body) w Q.
Proof. unfold wp, defer. destruct (body w) as [w1 x]. exact id. Qed.

Lemma wp_call {A} s args (f : World -> World * result A) w Q :
  Q (record_event (Did s args (is_ok (f w).2)) (f w).1) (Next (f w).2) ->
  wp (call s args f) w Q.
Proof. unfold wp, call. destruct (f w) as [w1 res]. exact id. Qed.

(** Symbolic execution: one rule per construct; a collaborator is
    unfolded and the run splits on its answer, in program order. *)

Ltac head_of t := lazymatch t with ?f _ => head_of f | _ => t end.

Ltac innermost x :=
  lazymatch x with
  | context [match ?y with _ => _ end] => innermost y
  | _ => x
  end.

Ltac split_on x :=
  let y := innermost x in
  tryif is_var y then destruct y else destruct y eqn:?.

Ltac eval_eqb :=
  repeat match goal with
  | |- context [String.eqb ?a ?b] =>
      let v := eval vm_compute in (String.eqb a b) in
      lazymatch v with
      | true => change (String.eqb a b) with true
      | false => change (String.eqb a b) with false
      end
  end.

Ltac wp_simpl :=
  repeat match goal with
  | |- context [VideoURL (with_VideoURL ?v ?u)] =>
      change (VideoURL (with_VideoURL v u)) with u
  end;
  cbv [fst snd is_ok of_fault fs s3 db trace sent
       set_fs set_s3 set_db record_event set_sent
       respondWithError respondWithJSON os_Remove note directory_of];
  eval_eqb.

Ltac wp_step :=
  lazymatch goal with
  | |- post _ => fail
  | |- wp (bind _ _) _ _ => apply wp_bind
  | |- wp (on_err _ _) _ _ => apply wp_on_err
  | |- wp (defer _ _) _ _ => apply wp_defer
  | |- wp (require _ _ _) _ _ => apply wp_require
  | |- wp (ret _) _ _ => apply wp_ret
  | |- wp return_ _ _ => apply wp_return
  | |- wp (panic _) _ _ => apply wp_panic
  | |- wp (call _ _ _) _ _ => apply wp_call
  | |- wp (pure_call _ _ _) _ _ => unfold pure_call at 1
  | |- wp (fun _ => _) _ _ => unfold wp at 1
  | |- wp (match ?x with _ => _ end) _ _ => split_on x
  | |- wp ?m _ _ => let h := head_of m in unfold h at 1
  | |- match ?x with _ => _ end => split_on x
  end; wp_simpl.

Ltac wp_run := repeat wp_step.

(** ** Status codes *)

Ltac cause_atom :=
  first
    [ reflexivity | eassumption
    | apply N.eqb_eq; eassumption | apply N.eqb_neq; eassumption
    | cbv; split; [discriminate | reflexivity] ].

Ltac cause_leaf :=
  lazymatch goal with
  | |- _ /\ _ => split; cause_leaf
  | |- _ \/ _ => first [left; solve [cause_leaf] | right; solve [cause_leaf]]
  | |- exists _, _ => eexists; cause_leaf
  | |- _ => cause_atom
  end.

Lemma handlerUploadVideo_status_by_cause (env : Env) (cfg : apiConfig)
    (r : Request) (w : World) :
  trace w = [] -> sent w = None ->
  video_status_by_cause env cfg r w (handlerUploadVideo env cfg r w).
Proof.
  intros Ht Hs. destruct w as [f o d t s]. simpl in Ht, Hs. subst.
  change (wp (handlerUploadVideo env cfg r)
            {| fs := f; s3 := o; db := d; trace := []; sent := None |}
            (fun w' x => post (video_status_by_cause env cfg r
               {| fs := f; s3 := o; db := d; trace := []; sent := None |}
               (w', x)))).
  unfold video_status_by_cause, video_admission, refused_with, server_side.
  cbn [db].
  wp_run; unfold post; cbn [fst snd sent trace failures negb]; cause_leaf.
Qed.

Lemma handlerUploadThumbnail_status_by_cause (env : Env) (cfg : apiConfig)
    (r : Request) (w : World) :
  trace w = [] -> sent w = None ->
  thumbnail_status_by_cause env cfg r w (handlerUploadThumbnail env cfg r w).
Proof.
  intros Ht Hs. destruct w as [f o d t s]. simpl in Ht, Hs. subst.
  change (wp (handlerUploadThumbnail env cfg r)
            {| fs := f; s3 := o; db := d; trace := []; sent := None |}
            (fun w' x => post (thumbnail_status_by_cause env cfg r
               {| fs := f; s3 := o; db := d; trace := []; sent := None |}
               (w', x)))).
  unfold thumbnail_status_by_cause, thumbnail_admission, refused_with,
    server_side.
  cbn [db].
  wp_run; unfold post; cbn [fst snd sent trace failures negb orb].
  all: try match goal with
       | H : negb (negb ?b1 && negb ?b2) = _ |- _ =>
           destruct b1, b2; cbn [negb andb orb] in H |- *; try discriminate H
       end.
  all: cause_leaf.
Qed.




(** ** The persisted reference *)

Lemma composite_splits (bucket key : string) :
  (length (strings.Split (bucket ++ "," ++ key) ","%char) <? 2)%nat = false.
Proof.
  rewrite Split_short, Contains_app.
  change ("," ++ key) with (String ","%char key). cbn [strings.Contains].
  rewrite Ascii.eqb_refl. cbn. rewrite orb_true_r. reflexivity.
Qed.

Lemma composite_parts (bucket key : string) :
  strings.Contains bucket ","%char = false ->
  strings.Contains key ","%char = false ->
  strings.Split (bucket ++ "," ++ key) ","%char = [bucket; key].
Proof. intros Hb Hk. apply Split_two. repeat split; assumption. Qed.

(** After a successful upload through the handler with the fast-start
    rewrite, the persisted video-URL field is the composite
    "<bucket>,<key>" of the configured bucket and the generated asset key
    under which the object was stored, and the record in the response
    carries the URL returned by the signer in that field instead. *)
Lemma handlerUploadVideo_persists_composite (env : Env) (cfg : apiConfig)
    (r : Request) (w : World) (code : Z) (payload : Video) :
  sent w = None ->
  sent (handlerUploadVideo env cfg r w).1 = Some (RespJSON code payload) ->
  persisted_composite env cfg r w (handlerUploadVideo env cfg r w).1
    code payload.
Proof.
  intros Hs. destruct w as [f o d t s]. simpl in Hs. subst.
  change (wp (handlerUploadVideo env cfg r)
            {| fs := f; s3 := o; db := d; trace := t; sent := None |}
            (fun w' x => post (sent w' = Some (RespJSON code payload) ->
               persisted_composite env cfg r
                 {| fs := f; s3 := o; db := d; trace := t; sent := None |}
                 w' code payload))).
  wp_run; unfold post; cbn [sent]; intros Hsent; try discriminate Hsent.
  all: try match goal with
       | H : (length (strings.Split (_ ++ "," ++ _) _) <? 2)%nat = true |- _ =>
           rewrite composite_splits in H; discriminate H
       end.
  all: injection Hsent as <- <-.
  all: match goal with
       | H : String.eqb _ "video/mp4" = true |- _ =>
           apply String.eqb_eq in H; subst
       end.
  all: change (mediaTypeToExt "video/mp4") with ".mp4" in *.
  all: match goal with
       | v : Video, H0 : ext_uuid_Parse _ _ = Ok ?a,
         H : ext_PutObject_fault _ _ (ext_Join _ ?dir (?id ++ _)) = None,
         H' : ext_Presign _ _ _ _ = Ok ?u |- _ =>
           exists a, v, dir, id; eexists _, u
       end.
  all: cbv zeta; cbn [s3 db].
  all: split; [assumption|].
  all: split; [assumption|].
  all: split; [reflexivity|].
  all: split; [auto|].
  all: split; [rewrite EncodeToString_length, length_resize; reflexivity|].
  all: split; [apply lookup_insert_eq|].
  all: split; [apply lookup_insert_eq|].
  all: split; [reflexivity|].
  all: split; [assumption|].
  all: intros Hb Hk.
  all: match goal with
       | H' : ext_Presign _ _ _ _ = Ok _ |- _ =>
           rewrite (composite_parts _ _ Hb Hk) in H'; exact H'
       end.
Qed.

(** After a successful upload through the first revision, the record is
    persisted, and returned, with the URL that getObjectURL gives for the
    key under which the uploaded bytes were stored. *)
Lemma Revision1_persists_direct_url (env : Env) (cfg : apiConfig)
    (getObjectURL : string -> string) (r : Request) (w : World)
    (code : Z) (payload : Video) :
  sent w = None ->
  sent (Revision1.handlerUploadVideo env cfg getObjectURL r w).1
  = Some (RespJSON code payload) ->
  uploaded_directly env cfg getObjectURL r w
    (Revision1.handlerUploadVideo env cfg getObjectURL r w).1 code payload.
Proof.
  intros Hs. destruct w as [f o d t s]. simpl in Hs. subst.
  change (wp (Revision1.handlerUploadVideo env cfg getObjectURL r)
            {| fs := f; s3 := o; db := d; trace := t; sent := None |}
            (fun w' x => post (sent w' = Some (RespJSON code payload) ->
               uploaded_directly env cfg getObjectURL r
                 {| fs := f; s3 := o; db := d; trace := t; sent := None |}
                 w' code payload))).
  wp_run; unfold post; cbn [sent]; intros Hsent; try discriminate Hsent.
  all: injection Hsent as <- <-.
  all: match goal with
       | H : String.eqb _ "video/mp4" = true |- _ =>
           apply String.eqb_eq in H; subst
       end.
  all: change (mediaTypeToExt "video/mp4") with ".mp4" in *.
  all: rewrite lookup_insert_eq in *; cbn [default] in *.
  all: match goal with
       | v : Video, p : Part, H0 : ext_uuid_Parse _ _ = Ok ?a,
         H : ext_PutObject_fault _ _ (ext_Join _ ?dir (?id ++ _)) = None
         |- _ => exists a, v, p, dir, id
       end.
  all: cbv zeta; cbn [s3 db].
  all: repeat (split; [first [assumption | reflexivity]|]).
  all: split; [auto|].
  all: split; [rewrite EncodeToString_length, length_resize; reflexivity|].
  all: repeat split.
Qed.

(** C6, as amended. After a successful video upload through the current
    handlerUploadVideo, the one with the fast-start rewrite, the persisted
    video-URL field is the composite "<bucket>,<key>" and the response
    carries the record with the signed URL in that field instead; after a
    successful upload through the earlier handlerUploadVideo, the
    persisted field is the URL that getObjectURL gives for the generated
    key, and the response carries the record with that same URL. *)
Theorem video_upload_persisted_reference (env : Env) (cfg : apiConfig)
    (getObjectURL : string -> string) (r : Request) (w : World) :
  sent w = None ->
  (forall code payload,
     sent (handlerUploadVideo env cfg r w).1 = Some (RespJSON code payload) ->
     persisted_composite env cfg r w (handlerUploadVideo env cfg r w).1
       code payload) /\
  (forall code payload,
     sent (Revision1.handlerUploadVideo env cfg getObjectURL r w).1
     = Some (RespJSON code payload) ->
     uploaded_directly env cfg getObjectURL r w
       (Revision1.handlerUploadVideo env cfg getObjectURL r w).1
       code payload).
Proof.
  intros Hs. split; intros code payload.
  - apply handlerUploadVideo_persists_composite. exact Hs.
  - apply Revision1_persists_direct_url. exact Hs.
Qed.

Lemma video_upload_persisted_reference_witness :
  persisted_composite Sample.env Sample.cfg
    (Sample.upload "alice" "video" "video/mp4" Sample.mp4) Sample.world
    (handlerUploadVideo Sample.env Sample.cfg
       (Sample.upload "alice" "video" "video/mp4" Sample.mp4)
       Sample.world).1
    200
    (with_VideoURL Sample.video
       (Some ("https://tubely.s3.amazonaws.com/landscape/"
              ++ "KioqKioqKioqKioqKioqKioqKioqKioqKioqKioqKio.mp4"
              ++ "?X-Amz-Expires=300"))) /\
  uploaded_directly Sample.env Sample.cfg
    (fun key => "https://tubely.s3.us-east-2.amazonaws.com/" ++ key)
    (Sample.upload "alice" "video" "video/mp4" Sample.mp4) Sample.world
    (Revision1.handlerUploadVideo Sample.env Sample.cfg
       (fun key => "https://tubely.s3.us-east-2.amazonaws.com/" ++ key)
       (Sample.upload "alice" "video" "video/mp4" Sample.mp4)
       Sample.world).1
    200
    (with_VideoURL Sample.video
       (Some ("https://tubely.s3.us-east-2.amazonaws.com/landscape/"
              ++ "KioqKioqKioqKioqKioqKioqKioqKioqKioqKioqKio.mp4"))).
Proof.
  destruct (video_upload_persisted_reference Sample.env Sample.cfg
              (fun key => "https://tubely.s3.us-east-2.amazonaws.com/" ++ key)
              (Sample.upload "alice" "video" "video/mp4" Sample.mp4)
              Sample.world eq_refl) as [Hcurrent Hearlier].
  split.
  - apply Hcurrent. vm_compute. reflexivity.
  - apply Hearlier. vm_compute. reflexivity.
Defined.

(** C6, as stated, fails on the earlier handlerUploadVideo, whatever URL
    getObjectURL gives: Alice's upload is answered with 200, and the
    response carries the very string that was persisted, which cannot be
    both the composite "tubely,<key>" and the URL the signer returns for
    it. *)
Lemma Revision1_returns_persisted_url :
  ~ (exists getObjectURL, forall env cfg r w code payload,
       sent w = None ->
       sent (Revision1.handlerUploadVideo env cfg getObjectURL r w).1
       = Some (RespJSON code payload) ->
       persisted_composite env cfg r w
         (Revision1.handlerUploadVideo env cfg getObjectURL r w).1
         code payload).
Proof.
  intros [g H].
  assert (Hsent :
    sent (Revision1.handlerUploadVideo Sample.env Sample.cfg g
            (Sample.upload "alice" "video" "video/mp4" Sample.mp4)
            Sample.world).1
    = Some (RespJSON 200
        (with_VideoURL Sample.video
           (Some (g ("landscape/"
                     ++ "KioqKioqKioqKioqKioqKioqKioqKioqKioqKioqKio.mp4"))))))
    by (vm_compute; reflexivity).
  destruct (H Sample.env Sample.cfg _ Sample.world _ _ eq_refl Hsent)
    as (videoID & video & directory & id & body & presigned & Hparse & Hdb
        & _ & _ & _ & _ & Hdbw & Hpay & Hsign & _).
  vm_compute in Hparse. injection Hparse as <-.
  vm_compute in Hdb. injection Hdb as <-.
  vm_compute in Hsign. injection Hsign as <-.
  vm_compute in Hdbw. injection Hdbw as Hstored.
  vm_compute in Hpay. injection Hpay as Hreturned.
  rewrite Hstored in Hreturned. discriminate Hreturned.
Qed.

(** ** Fast-start rewriter *)

(** Whatever the rewriter process reports, an output file that is missing
    or empty after it ran makes [processVideoForFastStart] fail. *)
Lemma processVideoForFastStart_bad_output (env : Env) (input : string)
    (w : World) :
  let output := input ++ ".processing" in
  let w1 := (run_ffmpeg env input output w).1 in
  fs w1 !! output = None \/ fs w1 !! output = Some [] ->
  exists e,
    (processVideoForFastStart env input w).2 = Next (Err e) /\
    rewrite_failed (trace (processVideoForFastStart env input w).1) = true.
Proof.
  cbv zeta. unfold processVideoForFastStart, bind, run_ffmpeg.
  destruct (ext_ffmpeg env input (input ++ ".processing") (fs w))
    as [[written stderr] [e|]]; cbn [fst snd of_fault is_ok].
  - intros _. eexists. split; reflexivity.
  - unfold os_Stat, call. cbn [fst snd fs set_fs record_event].
    intros [H|H]; rewrite H; cbn; eexists; split; reflexivity.
Qed.

(** When the rewriter stage fails, the handler answers with a server error
    and has not called PutObject. *)
Lemma handlerUploadVideo_rewrite_failure (env : Env) (cfg : apiConfig)
    (r : Request) (w : World) :
  trace w = [] -> sent w = None ->
  let w' := (handlerUploadVideo env cfg r w).1 in
  rewrite_failed (trace w') = true ->
  (exists e, sent w' = Some (RespError StatusInternalServerError
                               "Error processing video" (Some e))) /\
  put_attempted (trace w') = false.
Proof.
  intros Ht Hs. destruct w as [f o d t s]. simpl in Ht, Hs. subst. cbv zeta.
  change (wp (handlerUploadVideo env cfg r)
            {| fs := f; s3 := o; db := d; trace := []; sent := None |}
            (fun w' x => post (rewrite_failed (trace w') = true ->
               (exists e, sent w' = Some (RespError StatusInternalServerError
                                            "Error processing video" (Some e)))
               /\ put_attempted (trace w') = false))).
  wp_run; unfold post;
    cbv [trace sent rewrite_failed put_attempted existsb orb];
    intros Hf; try discriminate Hf;
    (split; [eexists; reflexivity | reflexivity]).
Qed.

(** C4. When the output file of the rewriter is missing or empty,
    [processVideoForFastStart] returns an error, also when the process
    reported success; and when the rewriter stage fails the handler
    answers with the server error "Error processing video" and no
    PutObject is attempted. *)
Theorem empty_output_is_processing_failure (env : Env) (cfg : apiConfig)
    (r : Request) (w : World) (input : string) :
  (let output := input ++ ".processing" in
   let w1 := (run_ffmpeg env input output w).1 in
   fs w1 !! output = None \/ fs w1 !! output = Some [] ->
   exists e,
     (processVideoForFastStart env input w).2 = Next (Err e) /\
     rewrite_failed (trace (processVideoForFastStart env input w).1) = true)
  /\
  (trace w = [] -> sent w = None ->
   let w' := (handlerUploadVideo env cfg r w).1 in
   rewrite_failed (trace w') = true ->
   (exists e, sent w' = Some (RespError StatusInternalServerError
                                "Error processing video" (Some e))) /\
   put_attempted (trace w') = false).
Proof.
  split.
  - apply processVideoForFastStart_bad_output.
  - apply handlerUploadVideo_rewrite_failure.
Qed.

Lemma empty_output_is_processing_failure_witness :
  (exists e,
     (processVideoForFastStart Sample.env_empty_output "/tmp/clip.mp4"
        Sample.world).2 = Next (Err e)) /\
  sent (handlerUploadVideo Sample.env_empty_output Sample.cfg
          (Sample.upload "alice" "video" "video/mp4" Sample.mp4)
          Sample.world).1
  = Some (RespError 500 "Error processing video"
            (Some "processed file is empty")) /\
  put_attempted
    (trace (handlerUploadVideo Sample.env_empty_output Sample.cfg
              (Sample.upload "alice" "video" "video/mp4" Sample.mp4)
              Sample.world).1) = false.
Proof.
  pose proof (empty_output_is_processing_failure Sample.env_empty_output
                Sample.cfg
                (Sample.upload "alice" "video" "video/mp4" Sample.mp4)
                Sample.world "/tmp/clip.mp4") as [Hfun Hhandler].
  split.
  - destruct (Hfun (or_intror eq_refl)) as [e [He _]]. exists e. exact He.
  - destruct (Hhandler eq_refl eq_refl eq_refl) as [_ Hput].
    split; [reflexivity | exact Hput].
Defined.

(** ** Scratch files *)

Lemma string_app_neq (s suffix : string) :
  suffix <> EmptyString -> s <> s ++ suffix.
Proof.
  intros Hne E. apply (f_equal String.length) in E.
  rewrite length_app_string in E.
  destruct suffix; [congruence|]. simpl in E. lia.
Qed.

(** X1. The staged temporary file is gone when the video handler ends,
    however it ends. *)
Lemma handlerUploadVideo_staged_removed (env : Env) (cfg : apiConfig)
    (r : Request) (w : World) (name : string) :
  trace w = [] ->
  In name (staged (trace (handlerUploadVideo env cfg r w).1)) ->
  fs (handlerUploadVideo env cfg r w).1 !! name = None.
Proof.
  intros Ht. destruct w as [f o d t s]. simpl in Ht. subst.
  change (wp (handlerUploadVideo env cfg r)
            {| fs := f; s3 := o; db := d; trace := []; sent := s |}
            (fun w' x => post (In name (staged (trace w')) ->
                               fs w' !! name = None))).
  wp_run; unfold post; cbv [trace fs staged flat_map app In];
    intros Hin; try contradiction; destruct Hin as [<-|[]];
    apply lookup_delete_eq.
Qed.

(** The output file of the rewriter is not: when the handler stops because
    that file is empty, the file is still there afterwards. *)
Lemma handlerUploadVideo_empty_output_left (env : Env) (cfg : apiConfig)
    (r : Request) (w : World) :
  trace w = [] ->
  failures (trace (handlerUploadVideo env cfg r w).1) = [NonEmptyOutput] ->
  exists name,
    staged (trace (handlerUploadVideo env cfg r w).1) = [name] /\
    fs (handlerUploadVideo env cfg r w).1 !! (name ++ ".processing")
    = Some [].
Proof.
  intros Ht. destruct w as [f o d t s]. simpl in Ht. subst.
  change (wp (handlerUploadVideo env cfg r)
            {| fs := f; s3 := o; db := d; trace := []; sent := s |}
            (fun w' x => post (failures (trace w') = [NonEmptyOutput] ->
               exists name, staged (trace w') = [name] /\
                 fs w' !! (name ++ ".processing") = Some []))).
  wp_run; unfold post; cbv [trace fs staged flat_map app failures];
    intros Hf; try discriminate Hf.
  all: eexists; split; [reflexivity|].
  all: rewrite lookup_delete_ne by (apply string_app_neq; discriminate).
  all: match goal with
       | H : _ !! _ = Some ?l, Hl : (length ?l =? 0)%nat = true |- _ =>
           rewrite H; destruct l; [reflexivity | discriminate Hl]
       end.
Qed.

(** C2 fails on the code: the rewriter leaves an empty output file and
    exits with status 0; the handler answers with the processing failure
    and removes the staged file, but the output file of the rewriter is
    still on the file system when the request is over. *)
Theorem rewriter_output_not_removed :
  let w' := (handlerUploadVideo Sample.env_empty_output Sample.cfg
               (Sample.upload "alice" "video" "video/mp4" Sample.mp4)
               Sample.world).1 in
  fs Sample.world = ∅ /\
  sent w' = Some (RespError 500 "Error processing video"
                    (Some "processed file is empty")) /\
  fs w' !! "/tmp/tubely-upload.mp42733" = None /\
  fs w' !! "/tmp/tubely-upload.mp42733.processing" = Some [].
Proof. vm_compute. repeat split. Qed.

(** ** Ownership *)

(** X4. The video handler refuses a user who is not the owner before it
    acts on anything: the files, the object store and the metadata store
    are as they were, and no step with an effect was taken. *)
Lemma handlerUploadVideo_denied_no_effect (env : Env) (cfg : apiConfig)
    (r : Request) (w : World) :
  trace w = [] -> sent w = None ->
  let w' := (handlerUploadVideo env cfg r w).1 in
  denied (trace w') = true ->
  sent w' = Some (RespError StatusUnauthorized
                    "Not authorized to update this video" None) /\
  fs w' = fs w /\ s3 w' = s3 w /\ db w' = db w /\
  effects (trace w') = [].
Proof.
  intros Ht Hs. destruct w as [f o d t s]. simpl in Ht, Hs. subst. cbv zeta.
  change (wp (handlerUploadVideo env cfg r)
            {| fs := f; s3 := o; db := d; trace := []; sent := None |}
            (fun w' x => post (denied (trace w') = true ->
               sent w' = Some (RespError StatusUnauthorized
                                 "Not authorized to update this video" None)
               /\ fs w' = f /\ s3 w' = o /\ db w' = d /\
               effects (trace w') = []))).
  wp_run; unfold post;
    cbv [trace sent fs s3 db denied effects existsb orb List.filter
         has_effect];
    intros Hd; try discriminate Hd; repeat split.
Qed.

(** The thumbnail handler refuses such a user only after it has created
    the asset file and copied the upload into it. *)
Lemma handlerUploadThumbnail_denied_after_write (env : Env)
    (cfg : apiConfig) (r : Request) (w : World) :
  trace w = [] -> sent w = None ->
  let w' := (handlerUploadThumbnail env cfg r w).1 in
  denied (trace w') = true ->
  sent w' = Some (RespError StatusUnauthorized
                    "Not authorized to update this video" None) /\
  exists path part,
    FormFile r "thumbnail" = Ok part /\
    effects (trace w') = [Did Copy [path] true; Did CreateFile [path] true]
    /\ fs w' !! path = Some (part_data part).
Proof.
  intros Ht Hs. destruct w as [f o d t s]. simpl in Ht, Hs. subst. cbv zeta.
  change (wp (handlerUploadThumbnail env cfg r)
            {| fs := f; s3 := o; db := d; trace := []; sent := None |}
            (fun w' x => post (denied (trace w') = true ->
               sent w' = Some (RespError StatusUnauthorized
                                 "Not authorized to update this video" None)
               /\ exists path part,
                    FormFile r "thumbnail" = Ok part /\
                    effects (trace w')
                    = [Did Copy [path] true; Did CreateFile [path] true] /\
                    fs w' !! path = Some (part_data part)))).
  wp_run; unfold post;
    cbv [trace sent fs denied effects existsb orb List.filter has_effect];
    intros Hd; try discriminate Hd.
  all: split; [reflexivity|].
  all: eexists _, _; split; [reflexivity|].
  all: split; [reflexivity | apply lookup_insert_eq].
Qed.

(** C3 fails on the code for thumbnails: Bob uploads a thumbnail for the
    video of Alice; the request ends with 401, but by then the asset file
    has been created and the upload written into it, and it stays. *)
Theorem thumbnail_written_before_owner_check :
  let w' := (handlerUploadThumbnail Sample.env Sample.cfg
               (Sample.upload "bob" "thumbnail" "image/png" Sample.mp4)
               Sample.world).1 in
  let path := "assets/KioqKioqKioqKioqKioqKioqKioqKioqKioqKioqKio.png" in
  UserID Sample.video = 7%N /\
  ext_ValidateJWT Sample.env "bob" "secret" = Ok 8%N /\
  fs Sample.world !! path = None /\
  sent w' = Some (RespError 401 "Not authorized to update this video" None)
  /\ fs w' !! path = Some Sample.mp4 /\
  effects (trace w') = [Did Copy [path] true; Did CreateFile [path] true].
Proof. vm_compute. repeat split. Qed.

(** * Further properties of the code *)

(** ** Scratch files of the video handler *)

Lemma handlerUploadVideo_staged_removed_witness :
  fs (handlerUploadVideo Sample.env Sample.cfg
        (Sample.upload "alice" "video" "video/mp4" Sample.mp4)
        Sample.world).1 !! "/tmp/tubely-upload.mp42733" = None.
Proof.
  apply (handlerUploadVideo_staged_removed Sample.env Sample.cfg
           (Sample.upload "alice" "video" "video/mp4" Sample.mp4)
           Sample.world).
  - reflexivity.
  - vm_compute. left. reflexivity.
Defined.


(** X2. After a video upload that is answered with 200, neither the staged
    file nor the output file of the rewriter is left. *)
Lemma video_success_no_scratch (env : Env) (cfg : apiConfig)
    (r : Request) (w : World) (code : Z) (payload : Video) :
  trace w = [] -> sent w = None ->
  sent (handlerUploadVideo env cfg r w).1 = Some (RespJSON code payload) ->
  exists name,
    staged (trace (handlerUploadVideo env cfg r w).1) = [name] /\
    fs (handlerUploadVideo env cfg r w).1 !! name = None /\
    fs (handlerUploadVideo env cfg r w).1 !! (name ++ ".processing") = None.
Proof.
  intros Ht Hs. destruct w as [f o d t s]. simpl in Ht, Hs. subst.
  change (wp (handlerUploadVideo env cfg r)
            {| fs := f; s3 := o; db := d; trace := []; sent := None |}
            (fun w' x => post (sent w' = Some (RespJSON code payload) ->
               exists name, staged (trace w') = [name] /\
                 fs w' !! name = None /\
                 fs w' !! (name ++ ".processing") = None))).
  wp_run; unfold post; cbv [sent fs trace staged flat_map app]; intros Hsent;
    try discriminate Hsent.
  all: eexists; split; [reflexivity|]; split; [apply lookup_delete_eq|].
  all: rewrite lookup_delete_ne by (apply string_app_neq; discriminate).
  all: apply lookup_delete_eq.
Qed.

Lemma video_success_no_scratch_witness :
  exists name,
    staged (trace (handlerUploadVideo Sample.env Sample.cfg
                     (Sample.upload "alice" "video" "video/mp4" Sample.mp4)
                     Sample.world).1) = [name] /\
    fs (handlerUploadVideo Sample.env Sample.cfg
          (Sample.upload "alice" "video" "video/mp4" Sample.mp4)
          Sample.world).1 !! name = None /\
    fs (handlerUploadVideo Sample.env Sample.cfg
          (Sample.upload "alice" "video" "video/mp4" Sample.mp4)
          Sample.world).1 !! (name ++ ".processing") = None.
Proof.
  eapply (video_success_no_scratch Sample.env Sample.cfg
            (Sample.upload "alice" "video" "video/mp4" Sample.mp4)
            Sample.world).
  - reflexivity.
  - reflexivity.
  - vm_compute. reflexivity.
Defined.


(** X3. Whatever the request, the video handler leaves every file as it
    was, except the staged file it created and the output path of the
    rewriter next to it. *)
Lemma video_touches_scratch_only (env : Env) (cfg : apiConfig)
    (r : Request) (w : World) (path : string) :
  let w' := (handlerUploadVideo env cfg r w).1 in
  fs w' !! path = fs w !! path \/
  exists name, In name (staged (trace w')) /\
               (path = name \/ path = name ++ ".processing").
Proof.
  destruct w as [f o d t s]. cbv zeta.
  change (wp (handlerUploadVideo env cfg r)
            {| fs := f; s3 := o; db := d; trace := t; sent := s |}
            (fun w' x => post (fs w' !! path = f !! path \/
               exists name, In name (staged (trace w')) /\
                 (path = name \/ path = name ++ ".processing")))).
  wp_run; unfold post; cbn [fs trace]; try (left; reflexivity).
  all: match goal with
       | |- delete ?a _ !! _ = _ \/ _ =>
           destruct (decide (path = a)) as [->|Hne];
             [right; exists a; split; [|left; reflexivity]|
              destruct (decide (path = a ++ ".processing")) as [->|Hne'];
                [right; exists a; split; [|right; reflexivity]|left]]
       end.
  all: try (unfold staged; cbn [flat_map app In];
            repeat first [left; reflexivity | right]).
  all: repeat match goal with
       | |- context [match ?x with Some _ => _ | None => _ end] => destruct x
       end.
  all: rewrite ?lookup_delete_ne, ?lookup_insert_ne by congruence; reflexivity.
Qed.

(** ** Effects of refused and of failed requests *)


Lemma handlerUploadVideo_denied_no_effect_witness :
  sent (handlerUploadVideo Sample.env Sample.cfg
          (Sample.upload "bob" "video" "video/mp4" Sample.mp4)
          Sample.world).1
  = Some (RespError StatusUnauthorized
            "Not authorized to update this video" None) /\
  fs (handlerUploadVideo Sample.env Sample.cfg
        (Sample.upload "bob" "video" "video/mp4" Sample.mp4)
        Sample.world).1 = fs Sample.world /\
  s3 (handlerUploadVideo Sample.env Sample.cfg
        (Sample.upload "bob" "video" "video/mp4" Sample.mp4)
        Sample.world).1 = s3 Sample.world /\
  db (handlerUploadVideo Sample.env Sample.cfg
        (Sample.upload "bob" "video" "video/mp4" Sample.mp4)
        Sample.world).1 = db Sample.world /\
  effects (trace (handlerUploadVideo Sample.env Sample.cfg
                    (Sample.upload "bob" "video" "video/mp4" Sample.mp4)
                    Sample.world).1) = [].
Proof.
  apply (handlerUploadVideo_denied_no_effect Sample.env Sample.cfg
           (Sample.upload "bob" "video" "video/mp4" Sample.mp4)
           Sample.world).
  - reflexivity.
  - reflexivity.
  - vm_compute. reflexivity.
Defined.


(** X5. When the video handler answers with a 4xx status, the files, the
    object store and the metadata store are exactly as before the
    request. *)
Lemma video_client_error_no_effect (env : Env) (cfg : apiConfig)
    (r : Request) (w : World) (code : Z) (msg : string) (err : option error) :
  sent w = None ->
  sent (handlerUploadVideo env cfg r w).1 = Some (RespError code msg err) ->
  400 <= code < 500 ->
  fs (handlerUploadVideo env cfg r w).1 = fs w /\
  s3 (handlerUploadVideo env cfg r w).1 = s3 w /\
  db (handlerUploadVideo env cfg r w).1 = db w.
Proof.
  intros Hs. destruct w as [f o d t s]. simpl in Hs. subst.
  change (wp (handlerUploadVideo env cfg r)
            {| fs := f; s3 := o; db := d; trace := t; sent := None |}
            (fun w' x => post (sent w' = Some (RespError code msg err) ->
               400 <= code < 500 -> fs w' = f /\ s3 w' = o /\ db w' = d))).
  wp_run; unfold post; cbn [sent fs s3 db]; intros Hsent Hcode;
    try discriminate Hsent; injection Hsent as <- <- <-;
    first [ solve [repeat split] | exfalso; revert Hcode; clear; cbv; intros [_ H]; discriminate H ].
Qed.

Lemma video_client_error_no_effect_witness :
  fs (handlerUploadVideo Sample.env Sample.cfg
        (Sample.upload "alice" "video" "image/png" Sample.mp4)
        Sample.world).1 = fs Sample.world /\
  s3 (handlerUploadVideo Sample.env Sample.cfg
        (Sample.upload "alice" "video" "image/png" Sample.mp4)
        Sample.world).1 = s3 Sample.world /\
  db (handlerUploadVideo Sample.env Sample.cfg
        (Sample.upload "alice" "video" "image/png" Sample.mp4)
        Sample.world).1 = db Sample.world.
Proof.
  apply (video_client_error_no_effect Sample.env Sample.cfg
           (Sample.upload "alice" "video" "image/png" Sample.mp4)
           Sample.world 400 "Invalid file type, only MP4 is allowed" None).
  - reflexivity.
  - vm_compute. reflexivity.
  - lia.
Defined.


(** X6. The video handler stores at most one object, which is not empty,
    has the content type video/mp4 and lies under the configured bucket;
    it changes the metadata store only after that object was stored, by
    writing the composite reference of that object to one record, and a
    request that changed the metadata store is answered with 200 or with
    the error that signing failed. *)
Lemma video_store_changes (env : Env) (cfg : apiConfig)
    (r : Request) (w : World) :
  stored_then_persisted cfg w (handlerUploadVideo env cfg r w).1.
Proof.
  destruct w as [f o d t s].
  change (wp (handlerUploadVideo env cfg r)
            {| fs := f; s3 := o; db := d; trace := t; sent := s |}
            (fun w' x => post (stored_then_persisted cfg
               {| fs := f; s3 := o; db := d; trace := t; sent := s |} w'))).
  wp_run; unfold post, stored_then_persisted; cbn [s3 db sent];
    try (left; split; reflexivity).
  all: try match goal with
       | H : (length (strings.Split (_ ++ "," ++ _) _) <? 2)%nat = true |- _ =>
           rewrite composite_splits in H; discriminate H
       end.
  all: right.
  all: match goal with
       | H : String.eqb _ "video/mp4" = true |- _ =>
           apply String.eqb_eq in H; subst
       end.
  all: eexists _, _; split; [|split; [reflexivity|]].
  all: repeat match goal with H : Some _ = Some _ |- _ => injection H as -> end.
  all: try match goal with H : (length ?l =? 0)%nat = false |- _ <> _ =>
         intros ->; discriminate H end.
  all: try (left; reflexivity).
  all: right; match goal with v : Video |- _ => exists v end;
    split; [reflexivity|].
  all: first [left; eexists; reflexivity | right; eexists; reflexivity].
Qed.

(** ** The thumbnail handler *)


(** X7. After a thumbnail upload that is answered with 200, the asset file
    holds the uploaded bytes, the record is persisted with the URL
    http://localhost:<port>/assets/<id><ext> as its thumbnail, the media
    type was image/jpeg or image/png, the payload is the persisted record
    and the object store is untouched. *)
Lemma thumbnail_upload_saves (env : Env) (cfg : apiConfig)
    (r : Request) (w : World) (code : Z) (payload : Video) :
  sent w = None ->
  sent (handlerUploadThumbnail env cfg r w).1 = Some (RespJSON code payload) ->
  thumbnail_saved env cfg r w (handlerUploadThumbnail env cfg r w).1
    code payload.
Proof.
  intros Hs. destruct w as [f o d t s]. simpl in Hs. subst.
  change (wp (handlerUploadThumbnail env cfg r)
            {| fs := f; s3 := o; db := d; trace := t; sent := None |}
            (fun w' x => post (sent w' = Some (RespJSON code payload) ->
               thumbnail_saved env cfg r
                 {| fs := f; s3 := o; db := d; trace := t; sent := None |}
                 w' code payload))).
  wp_run; unfold post; cbn [sent]; intros Hsent; try discriminate Hsent.
  injection Hsent as <- <-.
  match goal with
  | v : Video, p : Part, H0 : ext_uuid_Parse _ _ = Ok ?a,
    H1 : ext_ParseMediaType _ _ = Ok ?mt,
    H : ext_Create_fault _ (getAssetDiskPath _ _ (?id ++ _)) = None |- _ =>
      exists a, v, p, mt, id
  end.
  cbv zeta. cbn [fs s3 db].
  repeat (split; [first [assumption | reflexivity]|]).
  split.
  { match goal with H : negb _ = true |- _ =>
      apply negb_true_iff, andb_false_iff in H; destruct H as [H|H];
      apply negb_false_iff, String.eqb_eq in H; auto end. }
  split; [rewrite EncodeToString_length, length_resize; reflexivity|].
  repeat split.
Qed.

Lemma thumbnail_upload_saves_witness :
  thumbnail_saved Sample.env Sample.cfg
    (Sample.upload "alice" "thumbnail" "image/png" Sample.mp4) Sample.world
    (handlerUploadThumbnail Sample.env Sample.cfg
       (Sample.upload "alice" "thumbnail" "image/png" Sample.mp4)
       Sample.world).1
    200
    (with_ThumbnailURL Sample.video
       (Some ("http://localhost:8091/assets/"
              ++ "KioqKioqKioqKioqKioqKioqKioqKioqKioqKioqKio.png"))).
Proof.
  apply (thumbnail_upload_saves Sample.env Sample.cfg
           (Sample.upload "alice" "thumbnail" "image/png" Sample.mp4)
           Sample.world).
  - reflexivity.
  - vm_compute. reflexivity.
Defined.


(** X8. The thumbnail handler never touches the object store, and it
    changes the metadata store only when it answers with 200. *)
Lemma thumbnail_frame (env : Env) (cfg : apiConfig)
    (r : Request) (w : World) :
  let w' := (handlerUploadThumbnail env cfg r w).1 in
  s3 w' = s3 w /\
  (db w' = db w \/ exists payload, sent w' = Some (RespJSON StatusOK payload)).
Proof.
  destruct w as [f o d t s]. cbv zeta.
  change (wp (handlerUploadThumbnail env cfg r)
            {| fs := f; s3 := o; db := d; trace := t; sent := s |}
            (fun w' x => post (s3 w' = o /\
  (db w' = d \/ exists payload, sent w' = Some (RespJSON StatusOK payload))))).
  wp_run; unfold post; cbn [s3 db sent]; (split; [reflexivity|]);
    first [left; reflexivity | right; eexists; reflexivity].
Qed.

(** X9. When the thumbnail handler answers with a 4xx status for another
    reason than ownership, the files and both stores are exactly as before
    the request. *)
Lemma thumbnail_client_error_no_effect (env : Env) (cfg : apiConfig)
    (r : Request) (w : World) (code : Z) (msg : string) (err : option error) :
  trace w = [] -> sent w = None ->
  sent (handlerUploadThumbnail env cfg r w).1 = Some (RespError code msg err) ->
  400 <= code < 500 ->
  denied (trace (handlerUploadThumbnail env cfg r w).1) = false ->
  fs (handlerUploadThumbnail env cfg r w).1 = fs w /\
  s3 (handlerUploadThumbnail env cfg r w).1 = s3 w /\
  db (handlerUploadThumbnail env cfg r w).1 = db w.
Proof.
  intros Ht Hs. destruct w as [f o d t s]. simpl in Ht, Hs. subst.
  change (wp (handlerUploadThumbnail env cfg r)
            {| fs := f; s3 := o; db := d; trace := []; sent := None |}
            (fun w' x => post (sent w' = Some (RespError code msg err) ->
               400 <= code < 500 -> denied (trace w') = false ->
               fs w' = f /\ s3 w' = o /\ db w' = d))).
  wp_run; unfold post; cbv [sent fs s3 db trace denied existsb orb];
    intros Hsent Hcode Hd;
    try discriminate Hsent; try discriminate Hd; injection Hsent as <- <- <-;
    first [ solve [repeat split]
          | exfalso; revert Hcode; clear; cbv; intros [_ H]; discriminate H ].
Qed.

Lemma thumbnail_client_error_no_effect_witness :
  fs (handlerUploadThumbnail Sample.env Sample.cfg
        (Sample.upload "alice" "thumbnail" "text/plain" Sample.mp4)
        Sample.world).1 = fs Sample.world /\
  s3 (handlerUploadThumbnail Sample.env Sample.cfg
        (Sample.upload "alice" "thumbnail" "text/plain" Sample.mp4)
        Sample.world).1 = s3 Sample.world /\
  db (handlerUploadThumbnail Sample.env Sample.cfg
        (Sample.upload "alice" "thumbnail" "text/plain" Sample.mp4)
        Sample.world).1 = db Sample.world.
Proof.
  apply (thumbnail_client_error_no_effect Sample.env Sample.cfg
           (Sample.upload "alice" "thumbnail" "text/plain" Sample.mp4)
           Sample.world 400 "Invalid file type" None).
  - reflexivity.
  - reflexivity.
  - vm_compute. reflexivity.
  - lia.
  - vm_compute. reflexivity.
Defined.


(** ** The geometry inspector, continued *)


(** X10. [getVideoAspectRatio] leaves the files, the stores and the response
    alone; it returns one of the three buckets exactly when the probe ran,
    its output parsed and at least one stream was reported, and otherwise
    the error of the step that failed: the probe, the parsing, or the
    empty list of streams. *)
Lemma getVideoAspectRatio_outcome (env : Env) (filePath : string) (w : World) :
  same_stores w (getVideoAspectRatio env filePath w).1 /\
  match (getVideoAspectRatio env filePath w).2 with
  | Next (Ok bucket) =>
      (bucket = "16:9" \/ bucket = "9:16" \/ bucket = "other") /\
      exists stdout stream rest,
        ext_ffprobe env filePath (fs w) = (stdout, None) /\
        ext_Unmarshal env stdout = Ok (stream :: rest)
  | Next (Err e) =>
      (exists stdout err, ext_ffprobe env filePath (fs w) = (stdout, Some err) /\
                          e = "ffprobe error: " ++ err) \/
      (exists stdout err, ext_ffprobe env filePath (fs w) = (stdout, None) /\
                   ext_Unmarshal env stdout = Err err /\
                   e = "could not parse ffprobe output: " ++ err) \/
      (exists stdout, ext_ffprobe env filePath (fs w) = (stdout, None) /\
                      ext_Unmarshal env stdout = Ok [] /\
                      e = "no video streams found")
  | Returned | Panicked _ => False
  end.
Proof.
  destruct w as [f o d t s].
  change (wp (getVideoAspectRatio env filePath)
            {| fs := f; s3 := o; db := d; trace := t; sent := s |}
            (fun w' x => post (
  same_stores {| fs := f; s3 := o; db := d; trace := t; sent := s |} w' /\
  match x with
  | Next (Ok bucket) =>
      (bucket = "16:9" \/ bucket = "9:16" \/ bucket = "other") /\
      exists stdout stream rest,
        ext_ffprobe env filePath f = (stdout, None) /\
        ext_Unmarshal env stdout = Ok (stream :: rest)
  | Next (Err e) =>
      (exists stdout err, ext_ffprobe env filePath f = (stdout, Some err) /\
                          e = "ffprobe error: " ++ err) \/
      (exists stdout err, ext_ffprobe env filePath f = (stdout, None) /\
                   ext_Unmarshal env stdout = Err err /\
                   e = "could not parse ffprobe output: " ++ err) \/
      (exists stdout, ext_ffprobe env filePath f = (stdout, None) /\
                      ext_Unmarshal env stdout = Ok [] /\
                      e = "no video streams found")
  | Returned | Panicked _ => False
  end))).
  wp_run; unfold post, same_stores; cbn [fs s3 db sent];
    (split; [repeat split|]).
  all: try (split; [auto|]; eexists _, _, _; split; [reflexivity | eassumption]).
  all: first
    [ left; eexists _, _; split; reflexivity
    | right; left; eexists _, _;
      split; [reflexivity | split; [eassumption | reflexivity]]
    | right; right; eexists;
      split; [reflexivity | split; [eassumption | reflexivity]] ].
Qed.

Lemma getVideoAspectRatio_probed (env : Env) (filePath : string) (w : World)
    (width height : Z) :
  probes env filePath w width height ->
  (getVideoAspectRatio env filePath w).2 =
  Next (Ok (if width =? int_div (int_mul 16 height) 9 then "16:9"
            else if height =? int_div (int_mul 16 width) 9 then "9:16"
            else "other")).
Proof.
  intros [stdout [rest [Hrun Hparse]]].
  unfold getVideoAspectRatio, bind, run_ffprobe, json_Unmarshal, pure_call,
    call, note.
  rewrite Hrun. cbn. rewrite Hparse. cbn.
  destruct (width =? _); [reflexivity|]. destruct (height =? _); reflexivity.
Qed.



(** X11. For widths and heights from 0 up to 2^59, the bucket is "16:9"
    exactly when 9*width <= 16*height < 9*width + 9, so every exact 16:9
    frame is wide and so is a frame whose width is the 16:9 width rounded
    down; it is "9:16" exactly when that fails and the same holds with
    width and height exchanged. *)
Lemma getVideoAspectRatio_tolerance (env : Env) (filePath : string)
    (w : World) (width height : Z) :
  probes env filePath w width height ->
  0 <= width < 2 ^ 59 -> 0 <= height < 2 ^ 59 ->
  ((getVideoAspectRatio env filePath w).2 = Next (Ok "16:9") <->
   9 * width <= 16 * height < 9 * width + 9) /\
  ((getVideoAspectRatio env filePath w).2 = Next (Ok "9:16") <->
   ~ (9 * width <= 16 * height < 9 * width + 9) /\
   9 * height <= 16 * width < 9 * height + 9).
Proof.
  intros Hp Hw Hh. rewrite (getVideoAspectRatio_probed _ _ _ _ _ Hp).
  pose proof (wide_test_truncates width height Hh) as Hwide.
  pose proof (wide_test_truncates height width Hw) as Htall.
  destruct (Z.eqb_spec width (int_div (int_mul 16 height) 9)) as [E1|N1];
    [|destruct (Z.eqb_spec height (int_div (int_mul 16 width) 9)) as [E2|N2]].
  - split; split; intros H; try discriminate H; try tauto.
  - split; split; intros H; try discriminate H; try tauto.
  - split; split; intros H; try discriminate H; try tauto.
Qed.

Lemma getVideoAspectRatio_tolerance_witness :
  ((getVideoAspectRatio (Sample.env_probing 853 480) "/tmp/clip.mp4"
      Sample.world).2 = Next (Ok "16:9") <->
   9 * 853 <= 16 * 480 < 9 * 853 + 9) /\
  ((getVideoAspectRatio (Sample.env_probing 853 480) "/tmp/clip.mp4"
      Sample.world).2 = Next (Ok "9:16") <->
   ~ (9 * 853 <= 16 * 480 < 9 * 853 + 9) /\
   9 * 480 <= 16 * 853 < 9 * 480 + 9).
Proof.
  apply (getVideoAspectRatio_tolerance (Sample.env_probing 853 480)
           "/tmp/clip.mp4" Sample.world 853 480).
  - exists "{}", []. split; reflexivity.
  - lia.
  - lia.
Defined.


(** X12. Turning a frame by a quarter: when width x height is "9:16", then
    height x width is "16:9"; when it is "16:9", the turned frame is not
    "other"; when it is "other", so is the turned frame. *)
Lemma getVideoAspectRatio_transposed (env env' : Env)
    (filePath filePath' : string) (w w' : World) (width height : Z) :
  probes env filePath w width height ->
  probes env' filePath' w' height width ->
  ((getVideoAspectRatio env filePath w).2 = Next (Ok "9:16") ->
   (getVideoAspectRatio env' filePath' w').2 = Next (Ok "16:9")) /\
  ((getVideoAspectRatio env filePath w).2 = Next (Ok "16:9") ->
   (getVideoAspectRatio env' filePath' w').2 <> Next (Ok "other")) /\
  ((getVideoAspectRatio env filePath w).2 = Next (Ok "other") ->
   (getVideoAspectRatio env' filePath' w').2 = Next (Ok "other")).
Proof.
  intros Hp Hp'.
  rewrite (getVideoAspectRatio_probed _ _ _ _ _ Hp).
  rewrite (getVideoAspectRatio_probed _ _ _ _ _ Hp').
  destruct (Z.eqb_spec width (int_div (int_mul 16 height) 9)) as [E1|N1];
    destruct (Z.eqb_spec height (int_div (int_mul 16 width) 9)) as [E2|N2];
    repeat split; intros H; try discriminate H; try reflexivity;
    discriminate.
Qed.

Lemma getVideoAspectRatio_transposed_witness :
  ((getVideoAspectRatio (Sample.env_probing 1080 1920) "/tmp/a.mp4"
      Sample.world).2 = Next (Ok "9:16") ->
   (getVideoAspectRatio (Sample.env_probing 1920 1080) "/tmp/b.mp4"
      Sample.world).2 = Next (Ok "16:9")) /\
  ((getVideoAspectRatio (Sample.env_probing 1080 1920) "/tmp/a.mp4"
      Sample.world).2 = Next (Ok "16:9") ->
   (getVideoAspectRatio (Sample.env_probing 1920 1080) "/tmp/b.mp4"
      Sample.world).2 <> Next (Ok "other")) /\
  ((getVideoAspectRatio (Sample.env_probing 1080 1920) "/tmp/a.mp4"
      Sample.world).2 = Next (Ok "other") ->
   (getVideoAspectRatio (Sample.env_probing 1920 1080) "/tmp/b.mp4"
      Sample.world).2 = Next (Ok "other")).
Proof.
  apply (getVideoAspectRatio_transposed (Sample.env_probing 1080 1920)
           (Sample.env_probing 1920 1080) "/tmp/a.mp4" "/tmp/b.mp4"
           Sample.world Sample.world 1080 1920).
  - exists "{}", []. split; reflexivity.
  - exists "{}", []. split; reflexivity.
Defined.


(** ** The fast-start rewriter, continued *)


(** X13. [processVideoForFastStart] leaves the stores and the response
    alone; when it succeeds, the path it returns is the input path followed
    by ".processing", the process reported no error and the file at that
    path is not empty; when it fails, the process reported an error or the
    file at that path is missing or empty. *)
Lemma processVideoForFastStart_outcome (env : Env) (input : string) (w : World) :
  let output := input ++ ".processing" in
  let w' := (processVideoForFastStart env input w).1 in
  s3 w' = s3 w /\ db w' = db w /\ sent w' = sent w /\
  match (processVideoForFastStart env input w).2 with
  | Next (Ok path) =>
      path = output /\
      (ext_ffmpeg env input output (fs w)).2 = None /\
      exists data, data <> [] /\ fs w' !! path = Some data
  | Next (Err e) =>
      (ext_ffmpeg env input output (fs w)).2 <> None \/
      fs w' !! output = None \/ fs w' !! output = Some []
  | Returned | Panicked _ => False
  end.
Proof.
  destruct w as [f o d t s]. cbv zeta. cbn [fs s3 db sent].
  change (wp (processVideoForFastStart env input)
            {| fs := f; s3 := o; db := d; trace := t; sent := s |}
            (fun w' x => post (
  s3 w' = o /\ db w' = d /\ sent w' = s /\
  match x with
  | Next (Ok path) =>
      path = input ++ ".processing" /\
      (ext_ffmpeg env input (input ++ ".processing") f).2 = None /\
      exists data, data <> [] /\ fs w' !! path = Some data
  | Next (Err e) =>
      (ext_ffmpeg env input (input ++ ".processing") f).2 <> None \/
      fs w' !! (input ++ ".processing") = None \/
      fs w' !! (input ++ ".processing") = Some []
  | Returned | Panicked _ => False
  end))).
  wp_run; unfold post; cbn [fs s3 db sent fst snd];
    (split; [reflexivity|]); (split; [reflexivity|]); (split; [reflexivity|]).
  all: try (left; discriminate).
  all: try (right; left; first [reflexivity | assumption]).
  all: try match goal with
       | H : (length ?l =? 0)%nat = true |- _ =>
           right; right; destruct l; [first [reflexivity | assumption]
                                     | discriminate H]
       end.
  all: split; [reflexivity|]; split; [reflexivity|].
  all: eexists; split; [|first [reflexivity | eassumption]].
  all: match goal with
       | H : (length ?l =? 0)%nat = false |- _ => intros ->; discriminate H
       end.
Qed.

(** ** The URL signing adapter, continued *)


(** X14. [dbVideoToSignedVideo] leaves the files, the stores and the
    response alone and changes no field of the record but the video URL:
    a record without URL is returned as it is and without error, a record
    with a URL keeps having one, and with an error the record is returned
    as it was. *)
Lemma dbVideoToSignedVideo_frame (env : Env) (video : Video) (w : World) :
  same_stores w (dbVideoToSignedVideo env video w).1 /\
  exists video' err,
    (dbVideoToSignedVideo env video w).2 = Next (video', err) /\
    only_url_differs video video' /\
    (VideoURL video = None -> video' = video /\ err = None) /\
    (err <> None -> video' = video) /\
    (VideoURL video' = None <-> VideoURL video = None).
Proof.
  destruct w as [f o d t s].
  change (wp (dbVideoToSignedVideo env video)
            {| fs := f; s3 := o; db := d; trace := t; sent := s |}
            (fun w' x => post (
  same_stores {| fs := f; s3 := o; db := d; trace := t; sent := s |} w' /\
  exists video' err,
    x = Next (video', err) /\
    only_url_differs video video' /\
    (VideoURL video = None -> video' = video /\ err = None) /\
    (err <> None -> video' = video) /\
    (VideoURL video' = None <-> VideoURL video = None)))).
  wp_run; unfold post, same_stores, only_url_differs; cbn [fs s3 db sent];
    (split; [repeat split|]); eexists _, _; (split; [reflexivity|]);
    cbn [ID UserID ThumbnailURL VideoURL with_VideoURL];
    repeat split; try congruence; try discriminate; intros H; try discriminate H;
    try (exfalso; apply H; reflexivity).
Qed.

(** X15. The reference that the handler writes reads back: for a bucket and
    a key without comma, signing the record that holds "bucket,key" asks
    the signer for exactly that bucket and key and puts the URL it returns
    in the record. *)
Lemma dbVideoToSignedVideo_round_trip (env : Env) (video : Video) (w : World)
    (bucket key presigned : string) :
  strings.Contains bucket ","%char = false ->
  strings.Contains key ","%char = false ->
  VideoURL video = Some (bucket ++ "," ++ key) ->
  ext_Presign env bucket key five_minutes = Ok presigned ->
  dbVideoToSignedVideo env video w =
  (record_event (Did PresignGetObject [bucket; key] true) w,
   Next (with_VideoURL video (Some presigned), None)).
Proof.
  intros Hb Hk Hurl Hsign. unfold dbVideoToSignedVideo. rewrite Hurl.
  rewrite (composite_parts bucket key Hb Hk).
  cbn [length Nat.ltb Nat.leb nth].
  unfold generatePresignedURL, s3_PresignGetObject, pure_call, call, bind.
  rewrite Hsign. reflexivity.
Qed.

Lemma dbVideoToSignedVideo_round_trip_witness :
  dbVideoToSignedVideo Sample.env
    (with_VideoURL Sample.video (Some ("tubely" ++ "," ++ "landscape/a.mp4")))
    Sample.world
  = (record_event (Did PresignGetObject ["tubely"; "landscape/a.mp4"] true)
       Sample.world,
     Next (with_VideoURL
             (with_VideoURL Sample.video
                (Some ("tubely" ++ "," ++ "landscape/a.mp4")))
             (Some ("https://tubely.s3.amazonaws.com/landscape/a.mp4"
                    ++ "?X-Amz-Expires=300")), None)).
Proof.
  apply (dbVideoToSignedVideo_round_trip Sample.env
           (with_VideoURL Sample.video
              (Some ("tubely" ++ "," ++ "landscape/a.mp4")))
           Sample.world "tubely" "landscape/a.mp4");
    reflexivity.
Defined.


(** ** Asset paths, continued *)


Lemma Split_parts_no_sep (s : string) (c : ascii) (p : string) :
  In p (strings.Split s c) -> strings.Contains p c = false.
Proof.
  revert p. induction s as [|x s IH]; simpl; intros p Hin.
  - destruct Hin as [<-|[]]. reflexivity.
  - destruct (Ascii.eqb x c) eqn:E.
    + destruct Hin as [<-|Hin]; [reflexivity | apply IH, Hin].
    + destruct (strings.Split s c) as [|q qs] eqn:Hs.
      * exfalso. exact (Split_not_nil s c Hs).
      * destruct Hin as [<-|Hin].
        -- simpl. rewrite E. apply IH. left. reflexivity.
        -- apply IH. right. exact Hin.
Qed.



Lemma mediaTypeToExt_shape (mediaType : string) :
  (exists rest, mediaTypeToExt mediaType = String "."%char rest) /\
  strings.Contains (mediaTypeToExt mediaType) "/"%char = false.
Proof.
  unfold mediaTypeToExt.
  destruct (strings.Split mediaType "/"%char) as [|a [|b [|c rest]]] eqn:Hs;
    try (split; [eexists; reflexivity | reflexivity]).
  change (negb (length [a; b] =? 2)%nat) with false. cbv iota.
  change (nth 1 [a; b] EmptyString) with b.
  change ("." ++ b) with (String "."%char b).
  split; [exists b; reflexivity|].
  cbn [strings.Contains]. change (Ascii.eqb "." "/") with false.
  apply (Split_parts_no_sep mediaType "/"%char). rewrite Hs. right. left.
  reflexivity.
Qed.



(** X16. For every media type string, valid or not, the path that
    [getAssetPath] returns contains no "/", is longer than 43 characters
    and has "." as its 44th character; it changes nothing in the world but
    the journal, and it panics only when the random source failed. *)
Lemma getAssetPath_single_segment (env : Env) (mediaType : string) (w : World) :
  same_stores w (getAssetPath env mediaType w).1 /\
  match (getAssetPath env mediaType w).2 with
  | Next path =>
      strings.Contains path "/"%char = false /\
      (43 < String.length path)%nat /\
      String.get 43 path = Some "."%char
  | Panicked _ => (ext_rand_Read env 32).2 <> None
  | Returned => False
  end.
Proof.
  unfold getAssetPath, bind, rand_Read, same_stores.
  destruct (ext_rand_Read env 32) as [bytes [e|]]; cbn.
  - repeat split. discriminate.
  - split; [repeat split|].
    pose proof (EncodeToString_chars (resize 32 x00 bytes)) as Hc.
    pose proof (EncodeToString_length (resize 32 x00 bytes)) as Hl.
    rewrite length_resize in Hl. change ((4 * 32 + 2) / 3)%nat with 43%nat in Hl.
    destruct (mediaTypeToExt_shape mediaType) as [[rest Hrest] Hno].
    split; [|split].
    + rewrite Contains_app, Hno, orb_false_r.
      apply (all_chars_Contains is_url_char); [exact Hc | reflexivity].
    + rewrite length_app_string, Hl, Hrest. simpl. lia.
    + rewrite Hrest. rewrite <- Hl. clear.
      induction (base64.EncodeToString (resize 32 x00 bytes)) as [|c s IH];
        [reflexivity | exact IH].
Qed.

(** The encoding is injective: the characters give back the sextets, the
    sextets the 24-bit group, and the group its bytes. *)


Lemma index_encode (i : N) :
  (i < 64)%N -> index_in base64.encodeURL (base64.encode i) = i.
Proof.
  intros Hi. unfold base64.encode.
  rewrite <- (N2Nat.id i) at 2.
  assert (Hn : (N.to_nat i < 64)%nat) by lia.
  revert Hn. generalize (N.to_nat i). intros n Hn.
  do 64 (destruct n as [|n]; [reflexivity|]). lia.
Qed.

Lemma land_63_lt (x : N) : (N.land x 63 < 64)%N.
Proof.
  change 63%N with (N.ones 6). rewrite N.land_ones.
  apply N.mod_lt. discriminate.
Qed.

Lemma sextet_inj (val val' shift : N) :
  base64.sextet val shift = base64.sextet val' shift ->
  N.land (N.shiftr val shift) 63 = N.land (N.shiftr val' shift) 63.
Proof.
  unfold base64.sextet. intros H.
  rewrite <- (index_encode _ (land_63_lt (N.shiftr val shift))).
  rewrite <- (index_encode _ (land_63_lt (N.shiftr val' shift))).
  rewrite H. reflexivity.
Qed.

Lemma sextets_sum (val : N) :
  (val < 2 ^ 24)%N ->
  val = (N.land (N.shiftr val 18) 63 * 2 ^ 18
         + N.land (N.shiftr val 12) 63 * 2 ^ 12
         + N.land (N.shiftr val 6) 63 * 2 ^ 6
         + N.land (N.shiftr val 0) 63)%N.
Proof.
  intros H. change 63%N with (N.ones 6). rewrite !N.land_ones.
  rewrite !N.shiftr_div_pow2. 
  change (2 ^ 18)%N with 262144%N. change (2^12)%N with 4096%N.
  change (2^6)%N with 64%N. change (2^0)%N with 1%N. change (2^24)%N with 16777216%N in H.
  zify. Z.to_euclidean_division_equations. lia.
Qed.

Lemma lor_add_low (x y n : N) :
  (y < 2 ^ n)%N -> N.lor (x * 2 ^ n) y = (x * 2 ^ n + y)%N.
Proof.
  intros Hy.
  assert (Hland : N.land (x * 2 ^ n) y = 0%N).
  { rewrite <- (N.mod_small y (2 ^ n)) by exact Hy.
    rewrite <- N.land_ones, (N.land_comm y), N.land_assoc,
      (N.land_ones (x * 2 ^ n)).
    rewrite N.Div0.mod_mul.
    apply N.land_0_l. }
  rewrite <- (N.lxor_lor _ _ Hland). symmetry.
  apply N.add_nocarry_lxor. exact Hland.
Qed.

Lemma to_N_lt (b : byte) : (Byte.to_N b < 256)%N.
Proof. pose proof (Byte.to_N_bounded b). lia. Qed.

Lemma to_N_inj (a b : byte) : Byte.to_N a = Byte.to_N b -> a = b.
Proof.
  intros H. pose proof (Byte.of_to_N a) as Ha. rewrite H, Byte.of_to_N in Ha.
  congruence.
Qed.

Lemma val3_sum (a b c : N) :
  (a < 256)%N -> (b < 256)%N -> (c < 256)%N ->
  N.lor (N.lor (N.shiftl a 16) (N.shiftl b 8)) c
  = (a * 65536 + b * 256 + c)%N.
Proof.
  intros Ha Hb Hc. rewrite !N.shiftl_mul_pow2.
  rewrite (lor_add_low a (b * 2 ^ 8) 16)
    by (change (2 ^ 16)%N with 65536%N; change (2 ^ 8)%N with 256%N; lia).
  replace (a * 2 ^ 16 + b * 2 ^ 8)%N with ((a * 2 ^ 8 + b) * 2 ^ 8)%N
    by (change (2 ^ 16)%N with 65536%N; change (2 ^ 8)%N with 256%N; lia).
  rewrite lor_add_low by (change (2 ^ 8)%N with 256%N; lia).
  change (2 ^ 8)%N with 256%N. lia.
Qed.

Lemma val2_sum (a b : N) :
  (a < 256)%N -> (b < 256)%N ->
  N.lor (N.shiftl a 16) (N.shiftl b 8) = (a * 65536 + b * 256)%N.
Proof.
  intros Ha Hb. rewrite !N.shiftl_mul_pow2.
  rewrite (lor_add_low a (b * 2 ^ 8) 16)
    by (change (2 ^ 16)%N with 65536%N; change (2 ^ 8)%N with 256%N; lia).
  change (2 ^ 16)%N with 65536%N; change (2 ^ 8)%N with 256%N. lia.
Qed.

Lemma sextets_inj (v v' : N) :
  (v < 2 ^ 24)%N -> (v' < 2 ^ 24)%N ->
  N.land (N.shiftr v 18) 63 = N.land (N.shiftr v' 18) 63 ->
  N.land (N.shiftr v 12) 63 = N.land (N.shiftr v' 12) 63 ->
  N.land (N.shiftr v 6) 63 = N.land (N.shiftr v' 6) 63 ->
  N.land (N.shiftr v 0) 63 = N.land (N.shiftr v' 0) 63 ->
  v = v'.
Proof.
  intros Hv Hv' H18 H12 H6 H0.
  rewrite (sextets_sum v Hv), (sextets_sum v' Hv'), H18, H12, H6, H0.
  reflexivity.
Qed.

Lemma low_sextets_zero (v : N) :
  (N.land (N.shiftr (v * 256) 0) 63 = 0
   /\ N.land (N.shiftr (v * 65536) 6) 63 = 0)%N.
Proof.
  change 63%N with (N.ones 6). rewrite !N.land_ones, !N.shiftr_div_pow2.
  change (2 ^ 6)%N with 64%N. change (2 ^ 0)%N with 1%N.
  zify. Z.to_euclidean_division_equations. lia.
Qed.

Lemma EncodeToString_inj (l l' : list byte) :
  length l = length l' ->
  base64.EncodeToString l = base64.EncodeToString l' -> l = l'.
Proof.
  assert (H : forall n (l l' : list byte), (length l < n)%nat ->
             length l = length l' ->
             base64.EncodeToString l = base64.EncodeToString l' -> l = l').
  { induction n as [|n IH]; intros k k' Hn Hlen E; [lia|].
    destruct k as [|a [|b [|c rest]]]; destruct k' as [|a' [|b' [|c' rest']]];
      try discriminate Hlen; [reflexivity| | |].
    - cbn [base64.EncodeToString] in E. injection E as E18 E12.
      apply sextet_inj in E18, E12.
      pose proof (to_N_lt a). pose proof (to_N_lt a').
      rewrite !N.shiftl_mul_pow2 in E18, E12.
      change (2 ^ 16)%N with 65536%N in E18, E12.
      assert (Ev : (Byte.to_N a * 65536 = Byte.to_N a' * 65536)%N).
      { apply sextets_inj; try assumption;
          try (change (2 ^ 24)%N with 16777216%N; lia).
        - rewrite !(proj2 (low_sextets_zero _)). reflexivity.
        - replace (Byte.to_N a * 65536)%N with (Byte.to_N a * 256 * 256)%N by lia.
          replace (Byte.to_N a' * 65536)%N with (Byte.to_N a' * 256 * 256)%N by lia.
          rewrite !(proj1 (low_sextets_zero _)). reflexivity. }
      f_equal. apply to_N_inj. lia.
    - cbn [base64.EncodeToString] in E. injection E as E18 E12 E6.
      apply sextet_inj in E18, E12, E6.
      pose proof (to_N_lt a). pose proof (to_N_lt a').
      pose proof (to_N_lt b). pose proof (to_N_lt b').
      rewrite !val2_sum in E18, E12, E6 by assumption.
      assert (Ev : (Byte.to_N a * 65536 + Byte.to_N b * 256
                    = Byte.to_N a' * 65536 + Byte.to_N b' * 256)%N).
      { apply sextets_inj; try assumption;
          try (change (2 ^ 24)%N with 16777216%N; lia).
        replace (Byte.to_N a * 65536 + Byte.to_N b * 256)%N
          with ((Byte.to_N a * 256 + Byte.to_N b) * 256)%N by lia.
        replace (Byte.to_N a' * 65536 + Byte.to_N b' * 256)%N
          with ((Byte.to_N a' * 256 + Byte.to_N b') * 256)%N by lia.
        rewrite !(proj1 (low_sextets_zero _)). reflexivity. }
      assert (Byte.to_N a = Byte.to_N a' /\ Byte.to_N b = Byte.to_N b')
        as [Ea Eb] by lia.
      apply to_N_inj in Ea, Eb. subst. reflexivity.
    - cbn [base64.EncodeToString] in E. injection E as E18 E12 E6 E0 Erest.
      apply sextet_inj in E18, E12, E6, E0.
      pose proof (to_N_lt a). pose proof (to_N_lt a').
      pose proof (to_N_lt b). pose proof (to_N_lt b').
      pose proof (to_N_lt c). pose proof (to_N_lt c').
      rewrite !val3_sum in E18, E12, E6, E0 by assumption.
      assert (Ev : (Byte.to_N a * 65536 + Byte.to_N b * 256 + Byte.to_N c
                    = Byte.to_N a' * 65536 + Byte.to_N b' * 256
                      + Byte.to_N c')%N).
      { apply sextets_inj; try assumption;
          change (2 ^ 24)%N with 16777216%N; lia. }
      assert (Byte.to_N a = Byte.to_N a' /\ Byte.to_N b = Byte.to_N b'
              /\ Byte.to_N c = Byte.to_N c') as [Ea [Eb Ec]] by lia.
      apply to_N_inj in Ea, Eb, Ec. subst.
      f_equal. f_equal. f_equal. apply IH; [simpl in Hn; lia| |exact Erest].
      simpl in Hlen. lia. }
  apply (H (S (length l))). lia.
Qed.

Lemma string_app_inj (a a' b b' : string) :
  String.length a = String.length a' -> a ++ b = a' ++ b' ->
  a = a' /\ b = b'.
Proof.
  revert a'. induction a as [|x a IH]; intros [|x' a'] Hlen E;
    try discriminate Hlen.
  - split; [reflexivity | exact E].
  - simpl in E. injection E as -> E. injection Hlen as Hlen.
    destruct (IH a' Hlen E) as [-> ->]. split; reflexivity.
Qed.


(** X17. Asset paths do not collide: two calls of [getAssetPath] that return
    the same path read the same 32 random bytes and derived the same
    extension. *)
Lemma getAssetPath_injective (env env' : Env) (mediaType mediaType' : string)
    (w w' : World) (path : string) :
  (getAssetPath env mediaType w).2 = Next path ->
  (getAssetPath env' mediaType' w').2 = Next path ->
  resize 32 x00 (ext_rand_Read env 32).1
  = resize 32 x00 (ext_rand_Read env' 32).1 /\
  mediaTypeToExt mediaType = mediaTypeToExt mediaType'.
Proof.
  unfold getAssetPath, bind, rand_Read.
  destruct (ext_rand_Read env 32) as [bytes [e|]];
    destruct (ext_rand_Read env' 32) as [bytes' [e'|]]; cbn;
    try discriminate.
  intros H H'. injection H as <-. injection H' as H'.
  apply string_app_inj in H' as [Hid Hext].
  - split; [|symmetry; exact Hext]. symmetry.
    apply EncodeToString_inj; [|exact Hid]. rewrite !length_resize; reflexivity.
  - rewrite !EncodeToString_length, !length_resize. reflexivity.
Qed.

Lemma getAssetPath_injective_witness :
  resize 32 x00 (ext_rand_Read Sample.env 32).1
  = resize 32 x00 (ext_rand_Read Sample.env_empty_output 32).1 /\
  mediaTypeToExt "video/mp4" = mediaTypeToExt "audio/mp4".
Proof.
  apply (getAssetPath_injective Sample.env Sample.env_empty_output
           "video/mp4" "audio/mp4" Sample.world Sample.world
           "KioqKioqKioqKioqKioqKioqKioqKioqKioqKioqKio.mp4");
    reflexivity.
Defined.


(** ** The first revision of the video handler *)


(** X18. The first revision of the video handler leaves the file system as
    it found it: every path has the contents it had before the request,
    except the staged file, which is gone. *)
Lemma Revision1_restores_files (env : Env) (cfg : apiConfig)
    (getObjectURL : string -> string) (r : Request) (w : World)
    (path : string) :
  let w' := (Revision1.handlerUploadVideo env cfg getObjectURL r w).1 in
  fs w' !! path = fs w !! path \/
  (In path (staged (trace w')) /\ fs w' !! path = None).
Proof.
  destruct w as [f o d t s]. cbv zeta.
  change (wp (Revision1.handlerUploadVideo env cfg getObjectURL r)
            {| fs := f; s3 := o; db := d; trace := t; sent := s |}
            (fun w' x => post (fs w' !! path = f !! path \/
               (In path (staged (trace w')) /\ fs w' !! path = None)))).
  wp_run; unfold post; cbn [fs trace]; try (left; reflexivity).
  all: match goal with
       | |- delete ?a _ !! _ = _ \/ _ =>
           destruct (decide (a = path)) as [<-|Hne];
             [right; split; [|apply lookup_delete_eq]
             |left; rewrite lookup_delete_ne, !lookup_insert_ne by exact Hne;
              reflexivity]
       end.
  all: unfold staged; cbn [flat_map app In]; 
    repeat first [left; reflexivity | right].
Qed.

(** X19. After an upload through the first revision that is answered with
    200, the object store holds the uploaded bytes as video/mp4 under the
    generated key, and the record is persisted, and returned, with the URL
    that getObjectURL gives for that key. *)
Lemma Revision1_upload (env : Env) (cfg : apiConfig)
    (getObjectURL : string -> string) (r : Request) (w : World)
    (code : Z) (payload : Video) :
  sent w = None ->
  sent (Revision1.handlerUploadVideo env cfg getObjectURL r w).1
  = Some (RespJSON code payload) ->
  uploaded_directly env cfg getObjectURL r w
    (Revision1.handlerUploadVideo env cfg getObjectURL r w).1 code payload.
Proof.
  intros Hs. destruct w as [f o d t s]. simpl in Hs. subst.
  change (wp (Revision1.handlerUploadVideo env cfg getObjectURL r)
            {| fs := f; s3 := o; db := d; trace := t; sent := None |}
            (fun w' x => post (sent w' = Some (RespJSON code payload) ->
               uploaded_directly env cfg getObjectURL r
                 {| fs := f; s3 := o; db := d; trace := t; sent := None |}
                 w' code payload))).
  wp_run; unfold post; cbn [sent]; intros Hsent; try discriminate Hsent.
  all: injection Hsent as <- <-.
  all: match goal with
       | H : String.eqb _ "video/mp4" = true |- _ =>
           apply String.eqb_eq in H; subst
       end.
  all: change (mediaTypeToExt "video/mp4") with ".mp4" in *.
  all: rewrite lookup_insert_eq in *; cbn [default] in *.
  all: match goal with
       | v : Video, p : Part, H0 : ext_uuid_Parse _ _ = Ok ?a,
         H : ext_PutObject_fault _ _ (ext_Join _ ?dir (?id ++ _)) = None |- _ =>
           exists a, v, p, dir, id
       end.
  all: cbv zeta; cbn [s3 db].
  all: repeat (split; [first [assumption | reflexivity]|]).
  all: split; [auto|].
  all: split; [rewrite EncodeToString_length, length_resize; reflexivity|].
  all: repeat split.
Qed.

Lemma Revision1_upload_witness :
  uploaded_directly Sample.env Sample.cfg
    (fun key => "https://tubely.s3.us-east-2.amazonaws.com/" ++ key)
    (Sample.upload "alice" "video" "video/mp4" Sample.mp4) Sample.world
    (Revision1.handlerUploadVideo Sample.env Sample.cfg
       (fun key => "https://tubely.s3.us-east-2.amazonaws.com/" ++ key)
       (Sample.upload "alice" "video" "video/mp4" Sample.mp4)
       Sample.world).1
    200
    (with_VideoURL Sample.video
       (Some ("https://tubely.s3.us-east-2.amazonaws.com/landscape/"
              ++ "KioqKioqKioqKioqKioqKioqKioqKioqKioqKioqKio.mp4"))).
Proof.
  apply (Revision1_upload Sample.env Sample.cfg
           (fun key => "https://tubely.s3.us-east-2.amazonaws.com/" ++ key)
           (Sample.upload "alice" "video" "video/mp4" Sample.mp4)
           Sample.world).
  - reflexivity.
  - vm_compute. reflexivity.
Defined.


(** ** The assets directory *)


Lemma ensureAssetsDir_stat_fault (faults : DiskFaults) (cfg : apiConfig)
    (entries : gset string) (e : error) :
  fault_Stat faults (assetsRoot cfg) = Some e ->
  ensureAssetsDir faults cfg entries = (entries, None).
Proof. intros H. unfold ensureAssetsDir, stat_error. rewrite H. reflexivity. Qed.

Lemma ensureAssetsDir_present (faults : DiskFaults) (cfg : apiConfig)
    (entries : gset string) :
  assetsRoot cfg ∈ entries ->
  ensureAssetsDir faults cfg entries = (entries, None).
Proof.
  intros H. unfold ensureAssetsDir, stat_error.
  destruct (fault_Stat faults (assetsRoot cfg)); [reflexivity|].
  rewrite bool_decide_eq_true_2 by exact H. reflexivity.
Qed.



Lemma ensureAssetsDir_absent (faults : DiskFaults) (cfg : apiConfig)
    (entries : gset string) :
  fault_Stat faults (assetsRoot cfg) = None ->
  assetsRoot cfg ∉ entries ->
  ensureAssetsDir faults cfg entries =
  match fault_Mkdir faults (assetsRoot cfg) with
  | Some e => (entries, Some e)
  | None => ({[assetsRoot cfg]} ∪ entries, None)
  end.
Proof.
  intros Hs H. unfold ensureAssetsDir, stat_error, os_Mkdir. rewrite Hs.
  rewrite bool_decide_eq_false_2 by exact H. cbn.
  destruct (fault_Mkdir faults (assetsRoot cfg)); reflexivity.
Qed.



(** X20. [ensureAssetsDir] removes nothing and adds at most the assets
    root; when it returns no error and the stat did not fail for another
    reason than absence, the root exists afterwards, and calling it again
    changes nothing; when the stat fails for another reason, it returns no
    error and creates nothing. *)
Lemma ensureAssetsDir_ensures (faults : DiskFaults) (cfg : apiConfig)
    (entries : gset string) :
  let root := assetsRoot cfg in
  let entries' := (ensureAssetsDir faults cfg entries).1 in
  let err := (ensureAssetsDir faults cfg entries).2 in
  entries ⊆ entries' /\
  entries' ⊆ {[root]} ∪ entries /\
  (err = None -> fault_Stat faults root = None -> root ∈ entries') /\
  (err = None -> ensureAssetsDir faults cfg entries' = (entries', None)) /\
  (fault_Stat faults root <> None -> entries' = entries /\ err = None).
Proof.
  cbv zeta.
  destruct (fault_Stat faults (assetsRoot cfg)) as [e|] eqn:Hstat.
  - rewrite !(ensureAssetsDir_stat_fault _ _ _ e Hstat). cbn [fst snd].
    rewrite ?(ensureAssetsDir_stat_fault _ _ _ e Hstat).
    repeat split; first [set_solver | discriminate].
  - destruct (decide (assetsRoot cfg ∈ entries)) as [Hin|Hout].
    + rewrite !(ensureAssetsDir_present _ _ _ Hin). cbn [fst snd].
      rewrite ?(ensureAssetsDir_present _ _ _ Hin).
      repeat split; first [set_solver | intros; contradiction].
    + rewrite !(ensureAssetsDir_absent _ _ _ Hstat Hout).
      destruct (fault_Mkdir faults (assetsRoot cfg)) as [e|]; cbn [fst snd].
      * repeat split; first [set_solver | discriminate | intros; contradiction].
      * rewrite ensureAssetsDir_present by set_solver.
        repeat split; first [set_solver | intros; contradiction].
Qed.

(** ** Checks of the library models against known values *)

Example Split_three : strings.Split "a,b,c" ","%char = ["a"; "b"; "c"].
Proof. reflexivity. Qed.

Example Split_empty : strings.Split "" ","%char = [""].
Proof. reflexivity. Qed.

Example Split_trailing : strings.Split "video/" "/"%char = ["video"; ""].
Proof. reflexivity. Qed.

Example EncodeToString_f : base64.EncodeToString ["f"%byte] = "Zg".
Proof. reflexivity. Qed.

Example EncodeToString_fo :
  base64.EncodeToString ["f"%byte; "o"%byte] = "Zm8".
Proof. reflexivity. Qed.

Example EncodeToString_foob :
  base64.EncodeToString ["f"%byte; "o"%byte; "o"%byte; "b"%byte] = "Zm9vYg".
Proof. reflexivity. Qed.

Example EncodeToString_url_safe :
  base64.EncodeToString [xfb; xff] = "-_8".
Proof. reflexivity. Qed.

Example mediaTypeToExt_png : mediaTypeToExt "image/png" = ".png".
Proof. reflexivity. Qed.

Example mediaTypeToExt_three : mediaTypeToExt "a/b/c" = ".bin".
Proof. reflexivity. Qed.

Example int_mul_wraps : int_mul 16 (2 ^ 60) = 0.
Proof. reflexivity. Qed.

Example int_div_truncates : int_div (-7) 2 = -3.
Proof. reflexivity. Qed.
